(** * fitvantage: the product-cache refresh and eligibility pipeline

    A shallow embedding of the affiliate pipeline of the repository:

    - [apps/affiliate/models.py]: [AffiliateProduct], [AffiliateProductFilter],
      [AffiliateProductCache] (with [get_products] and [is_cache_stale]);
    - [apps/affiliate/affiliate_services.py]: [ProductService], [CacheService],
      [FilterService];
    - [apps/core/utils.py]: [ProductRanker.rank_products];
    - [apps/core/tasks.py]: [refresh_affiliate_products] and
      [_refresh_category_cache].

    Conventions of the embedding.
    - A Python [float] or [Decimal] is a rational [Q]; only comparisons and the
      products with the ranking weights are taken of them, both exactly.
    - A nullable column is an [option]; a key that may be missing from a [dict]
      is an [option] too.
    - A timestamp is a number of seconds ([Z]); [timedelta(days=1)] is 86400.
    - A database table is the list of its rows, in the order the database
      hands them out; one-to-one rows hanging off a category are kept in a
      [gmap] from the category's primary key.
    - [sorted] is a stable sort that only uses [<] on the keys. *)

From Stdlib Require Import QArith Lqa Ascii.
From stdpp Require Import gmap strings list sorting.

Local Open Scope Z_scope.

(** ** Numbers *)

Definition Qltb (x y : Q) : bool := negb (Qle_bool y x).

(** Truth value of an optional [Decimal]: [None] and zero are falsy. *)
Definition decimal_truthy (d : option Q) : bool :=
  match d with
  | Some q => negb (Qeq_bool q 0)
  | None => false
  end.

(** ** Data model ([apps/affiliate/models.py]) *)

Inductive category_status := CAT_ACTIVE | CAT_INACTIVE | CAT_DRAFT.

Record AffiliateCategory := {
  cat_id : Z;
  cat_name : string;
  parent : option Z;
  amazon_category_id : string;
  cat_status : category_status;
  is_featured : bool;
  display_order : Z;
}.

Inductive product_status := ACTIVE | INACTIVE | DISCONTINUED | OUT_OF_STOCK.

Record AffiliateProduct := {
  asin : string;
  title : string;
  price_gbp : option Q;
  rating : option Q;
  review_count : Z;
  in_stock : bool;
  bsr_rank : option Z;
  status : product_status;
}.

Record AffiliateProductFilter := {
  min_rating : Q;
  min_review_count : Z;
  max_bsr_percentile : Z;
  uk_marketplace_only : bool;
  in_stock_only : bool;
  min_price : option Q;
  max_price : option Q;
  is_active : bool;
}.

Record AffiliateProductCache := {
  cached_asins : list string;
  last_updated : Z;
  next_refresh : option Z;
  is_fresh : bool;
  product_count : Z;
  uses_parent_fallback : bool;
  parent_fallback_asins : list string;
  last_error : string;
  error_count : Z;
}.

(** The [filter_rules] argument of [AffiliateProduct.meets_filter_criteria] is
    a [dict] (the shape of [settings.PRODUCT_FILTER_RULES]); it is read with
    [.get], so each key may be missing. *)
Record filter_rules_dict := {
  fr_min_rating : option Q;
  fr_min_review_count : option Z;
  fr_in_stock_only : option bool;
}.

(** ** Eligibility filter *)

Module FilterService.

(** [FilterService.apply_filter_rules(product, filter_rules)]. *)
Definition apply_filter_rules (product : AffiliateProduct)
    (filter_rules : AffiliateProductFilter) : bool :=
  if match rating product with
     | None => true
     | Some r => Qltb r (min_rating filter_rules)
     end
  then false
  else if review_count product <? min_review_count filter_rules then false
  else if in_stock_only filter_rules && negb (in_stock product) then false
  else if decimal_truthy (price_gbp product) then
    match price_gbp product with
    | Some price =>
        if decimal_truthy (min_price filter_rules) &&
           match min_price filter_rules with
           | Some lo => Qltb price lo
           | None => false
           end
        then false
        else if decimal_truthy (max_price filter_rules) &&
                match max_price filter_rules with
                | Some hi => Qltb hi price
                | None => false
                end
        then false
        else true
    | None => true
    end
  else true.

(** The rule built in the [except] branch of [get_filter_rules]:
    [AffiliateProductFilter(category=category, min_rating=4.0,
    min_review_count=200, in_stock_only=True)], the other columns taking
    the defaults of the model. *)
Definition default_filter : AffiliateProductFilter :=
  {| min_rating := 4; min_review_count := 200; max_bsr_percentile := 10;
     uk_marketplace_only := true; in_stock_only := true;
     min_price := None; max_price := None; is_active := true |}.

(** [FilterService.get_filter_rules(category)]: the one-to-one
    [filter_rules] row of the category, or the default rule when the
    lookup raises. *)
Definition get_filter_rules (filters : gmap Z AffiliateProductFilter)
    (category : AffiliateCategory) : AffiliateProductFilter :=
  match filters !! cat_id category with
  | Some rules => rules
  | None => default_filter
  end.

End FilterService.

(** [AffiliateProduct.meets_filter_criteria(self, filter_rules)]. *)
Definition meets_filter_criteria (self : AffiliateProduct)
    (filter_rules : filter_rules_dict) : bool :=
  if match rating self with
     | None => true
     | Some r => Qltb r (default 4%Q (fr_min_rating filter_rules))
     end
  then false
  else if review_count self <? default 200 (fr_min_review_count filter_rules)
  then false
  else if negb (in_stock self) && default false (fr_in_stock_only filter_rules)
  then false
  else true.

(** ** Sorting as Python's [sorted]

    [sorted(l, key=k)] is stable and compares keys with [<] only.  It is
    embedded as a stable insertion sort over the comparison
    [lt x y := k x < k y]: an element is moved past the elements that are
    strictly smaller and stops in front of the first one that is not. *)

Section PySorted.
Context {A : Type} (lt : A -> A -> bool).

Fixpoint insert_sorted (x : A) (l : list A) : list A :=
  match l with
  | [] => [x]
  | y :: l' => if lt y x then y :: insert_sorted x l' else x :: y :: l'
  end.

Definition py_sorted (l : list A) : list A := foldr insert_sorted [] l.

(** [x] and [y] tie: neither is smaller than the other. *)
Definition tied (x y : A) : Prop := lt x y = false /\ lt y x = false.

(** [x] may stand in front of [y]: [y] is not smaller than [x]. *)
Definition not_after (x y : A) : Prop := lt y x = false.
End PySorted.

(** ** Cache store ([AffiliateProductCache]) *)

(** [{asin: i for i, asin in enumerate(asins)}]: entries are inserted from
    left to right, a repeated identifier keeps its last position. *)
Definition preserved_order_of (asins : list string) : gmap string nat :=
  foldl (fun m ia => <[ia.2 := ia.1]> m) ∅ (imap pair asins).

#[global] Instance product_status_eq_dec : EqDecision product_status.
Proof. solve_decision. Defined.

(** [AffiliateProduct.objects.filter(asin__in=asins, status="ACTIVE")] over
    the rows [objects] of the product table. *)
Definition filter_asin_in_active (asins : list string)
    (objects : list AffiliateProduct) : list AffiliateProduct :=
  filter (fun x => asin x ∈ asins /\ status x = ACTIVE) objects.

(** [AffiliateProductCache.get_products(self)]. *)
Definition get_products (self : AffiliateProductCache)
    (objects : list AffiliateProduct) : list AffiliateProduct :=
  match cached_asins self with
  | [] => []
  | _ :: _ =>
      let asins := cached_asins self in
      let products := filter_asin_in_active asins objects in
      let preserved_order := preserved_order_of asins in
      let key x := default 999%nat (preserved_order !! asin x) in
      py_sorted (fun x y => (key x <? key y)%nat) products
  end.

(** [AffiliateProductCache.is_cache_stale(self)], at time [now]. *)
Definition is_cache_stale (self : AffiliateProductCache) (now : Z) : bool :=
  if negb (is_fresh self) then true
  else if match next_refresh self with
          | Some t => t <? now
          | None => false
          end
  then true
  else false.

(** [AffiliateCategory.get_product_count(self)]. *)
Definition get_product_count (caches : gmap Z AffiliateProductCache)
    (self : AffiliateCategory) : Z :=
  match caches !! cat_id self with
  | Some cache => Z.of_nat (length (cached_asins cache))
  | None => 0
  end.

(** ** Ranker ([ProductRanker], [apps/core/utils.py]) *)

(** A product as the product source returns it: a [dict] read with [.get]. *)
Record product_dict := {
  d_asin : option string;
  d_rating : option Q;
  d_review_count : option Z;
  d_bsr_rank : option Z;
}.

Record weights_dict := { w_rating : Q; w_reviews : Q; w_bsr : Q }.

Definition default_weights : weights_dict :=
  {| w_rating := 4 # 10; w_reviews := 3 # 10; w_bsr := 3 # 10 |}.

(** The third component of the sort key may be [float("inf")] times a
    weight. *)
Inductive xfloat := Fin (q : Q) | PInf | NInf | NaN.

Definition inf_times (w : Q) : xfloat :=
  if Qltb 0 w then PInf else if Qltb w 0 then NInf else NaN.

Definition xfloat_eqb (a b : xfloat) : bool :=
  match a, b with
  | Fin x, Fin y => Qeq_bool x y
  | PInf, PInf | NInf, NInf => true
  | _, _ => false
  end.

Definition xfloat_ltb (a b : xfloat) : bool :=
  match a, b with
  | NaN, _ | _, NaN => false
  | Fin x, Fin y => Qltb x y
  | NInf, NInf => false
  | NInf, _ => true
  | _, NInf => false
  | PInf, _ => false
  | Fin _, PInf => true
  end.

Definition sort_key : Type := Q * Q * xfloat.

(** [<] on the key tuples: the first component on which the tuples differ
    decides. *)
Definition tuple_ltb (a b : sort_key) : bool :=
  let '(a1, a2, a3) := a in
  let '(b1, b2, b3) := b in
  if negb (Qeq_bool a1 b1) then Qltb a1 b1
  else if negb (Qeq_bool a2 b2) then Qltb a2 b2
  else if negb (xfloat_eqb a3 b3) then xfloat_ltb a3 b3
  else false.

Module ProductRanker.

(** The [key=lambda p: (...)] of [rank_products]. *)
Definition rank_key (weights : weights_dict) (p : product_dict) : sort_key :=
  ((- (default 0%Q (d_rating p) * w_rating weights))%Q,
   (- (inject_Z (default 0%Z (d_review_count p)) * w_reviews weights))%Q,
   match d_bsr_rank p with
   | Some b => Fin (inject_Z b * w_bsr weights)
   | None => inf_times (w_bsr weights)
   end).

(** [ProductRanker.rank_products(products, weights=None)]. *)
Definition rank_products (products : list product_dict)
    (weights : option weights_dict) : list product_dict :=
  let weights := default default_weights weights in
  py_sorted (fun p q => tuple_ltb (rank_key weights p) (rank_key weights q))
    products.

End ProductRanker.

(** The comparison [rank_products] sorts with when no weights are passed. *)
Definition rank_lt (p q : product_dict) : bool :=
  tuple_ltb (ProductRanker.rank_key default_weights p)
            (ProductRanker.rank_key default_weights q).

(** ** Services ([apps/affiliate/affiliate_services.py]) *)

Module ProductService.

(** [order_by("-rating", "-review_count")]: [before a b] when [a] sorts
    strictly in front of [b].  The database is SQLite, where a NULL rating
    is smaller than every number and so comes last in a descending order. *)
Definition rating_ltb (a b : option Q) : bool :=
  match a, b with
  | None, Some _ => true
  | Some x, Some y => Qltb x y
  | _, None => false
  end.

Definition rating_eqb (a b : option Q) : bool :=
  match a, b with
  | None, None => true
  | Some x, Some y => Qeq_bool x y
  | _, _ => false
  end.

Definition before (a b : AffiliateProduct) : bool :=
  rating_ltb (rating b) (rating a)
  || (rating_eqb (rating a) (rating b) && (review_count b <? review_count a)).

(** Rows that tie on both columns keep the order of the table. *)
Definition order_by_rating_reviews (rows : list AffiliateProduct)
    : list AffiliateProduct :=
  py_sorted before rows.

Definition active_in_stock (x : AffiliateProduct) : Prop :=
  status x = ACTIVE /\ in_stock x = true.

#[global] Instance active_in_stock_dec x : Decision (active_in_stock x).
Proof. unfold active_in_stock. apply _. Defined.

(** [ProductService.get_top_products(limit)]. *)
Definition get_top_products (objects : list AffiliateProduct) (limit : nat)
    : list AffiliateProduct :=
  take limit (order_by_rating_reviews (filter active_in_stock objects)).

(** [ProductService.get_category_products(category, limit=None)]; a limit
    of [None] or 0 is falsy and returns everything. *)
Definition get_category_products (caches : gmap Z AffiliateProductCache)
    (objects : list AffiliateProduct) (category : AffiliateCategory)
    (limit : option nat) : list AffiliateProduct :=
  match caches !! cat_id category with
  | Some cache =>
      let products := get_products cache objects in
      match limit with
      | Some (S n) => take (S n) products
      | _ => products
      end
  | None => []
  end.

End ProductService.

Module CacheService.

(** [CacheService.is_cache_fresh(cache_obj)], at time [now]. *)
Definition is_cache_fresh (cache_obj : AffiliateProductCache) (now : Z)
    : bool :=
  if negb (is_fresh cache_obj) then false
  else if match cached_asins cache_obj with [] => true | _ :: _ => false end
  then false
  else negb (is_cache_stale cache_obj now).

(** The body of the [try] in [get_fallback_products]: [Some] when it
    returns, [None] when it falls through (no cache row for the parent,
    which raises and is swallowed, or an empty identifier list). *)
Definition parent_products (caches : gmap Z AffiliateProductCache)
    (objects : list AffiliateProduct) (parent_id : Z) (limit : nat)
    : option (list AffiliateProduct) :=
  match caches !! parent_id with
  | Some parent_cache =>
      match cached_asins parent_cache with
      | [] => None
      | _ :: _ => Some (take limit (get_products parent_cache objects))
      end
  | None => None
  end.

(** [CacheService.get_fallback_products(category, limit)]. *)
Definition get_fallback_products (caches : gmap Z AffiliateProductCache)
    (objects : list AffiliateProduct) (category : AffiliateCategory)
    (limit : nat) : list AffiliateProduct :=
  match parent category
        ≫= fun pid => parent_products caches objects pid limit with
  | Some products => products
  | None => ProductService.get_top_products objects limit
  end.

End CacheService.

(** ** Refresh orchestrator ([apps/core/tasks.py]) *)

(** What a call that may raise comes back with. *)
Inductive outcome (A : Type) :=
  | Returned (a : A)
  | Raised (exc : string).
Arguments Returned {A} a.
Arguments Raised {A} exc.

(** [category.amazon_category_id or category.id]. *)
Inductive category_node := NodeStr (s : string) | NodeId (n : Z).

Definition node_of (category : AffiliateCategory) : category_node :=
  match amazon_category_id category with
  | EmptyString => NodeId (cat_id category)
  | s => NodeStr s
  end.

(** The [{"min_rating": ..., "min_review_count": ...}] handed to the source. *)
Record api_filters := { f_min_rating : Q; f_min_review_count : Z }.

Definition timedelta_days (d : Z) : Z := d * 86400.

(** The [defaults=] of [update_or_create]. *)
Record cache_defaults := {
  def_cached_asins : list string;
  def_product_count : Z;
  def_is_fresh : bool;
  def_next_refresh : Z;
}.

(** [AffiliateProductCache.objects.update_or_create(category=category,
    defaults=...)] at time [now]: the row of the category gets the four
    columns of [defaults] ([last_updated] is [auto_now]); its other columns
    are kept, or take the defaults of the model when the row is created. *)
Definition update_or_create (caches : gmap Z AffiliateProductCache)
    (category : AffiliateCategory) (defaults : cache_defaults) (now : Z)
    : gmap Z AffiliateProductCache :=
  let row :=
    match caches !! cat_id category with
    | Some old =>
        {| cached_asins := def_cached_asins defaults;
           last_updated := now;
           next_refresh := Some (def_next_refresh defaults);
           is_fresh := def_is_fresh defaults;
           product_count := def_product_count defaults;
           uses_parent_fallback := uses_parent_fallback old;
           parent_fallback_asins := parent_fallback_asins old;
           last_error := last_error old;
           error_count := error_count old |}
    | None =>
        {| cached_asins := def_cached_asins defaults;
           last_updated := now;
           next_refresh := Some (def_next_refresh defaults);
           is_fresh := def_is_fresh defaults;
           product_count := def_product_count defaults;
           uses_parent_fallback := false;
           parent_fallback_asins := [];
           last_error := EmptyString;
           error_count := 0 |}
    end in
  <[cat_id category := row]> caches.

(** [[p.get("asin") for p in ranked if p.get("asin")]]: a missing or empty
    identifier is falsy. *)
Definition extract_asins (ranked : list product_dict) : list string :=
  omap (fun p => match d_asin p with
                 | Some EmptyString | None => None
                 | Some s => Some s
                 end) ranked.

Record refresh_summary := { refreshed : Z; errors : Z }.

#[global] Instance category_status_eq_dec : EqDecision category_status.
Proof. solve_decision. Defined.

(** The categories a run refreshes: [if category_id: ... elif tier == "top":
    ... else: ...] (a [category_id] of [None] or 0 is falsy). *)
Definition select_categories (table : list AffiliateCategory)
    (category_id : option Z) (tier : string) : list AffiliateCategory :=
  match category_id with
  | Some id =>
      if negb (id =? 0) then filter (fun c => cat_id c = id) table
      else if String.eqb tier "top" then
        take 20 (filter (fun c => cat_status c = CAT_ACTIVE
                                  /\ is_featured c = true) table)
      else filter (fun c => cat_status c = CAT_ACTIVE) table
  | None =>
      if String.eqb tier "top" then
        take 20 (filter (fun c => cat_status c = CAT_ACTIVE
                                  /\ is_featured c = true) table)
      else filter (fun c => cat_status c = CAT_ACTIVE) table
  end.

Section Tasks.

(** The product source, [AmazonAPIClient().get_category_products].  The
    client in [apps/core/utils.py] is a placeholder; the source is a
    parameter of the orchestrator here, and a call to it may raise. *)
Variable api_get_category_products :
  category_node -> api_filters -> outcome (list product_dict).

(** The rows of [AffiliateProductFilter], by category; the pipeline only
    reads them. *)
Variable filters : gmap Z AffiliateProductFilter.

(** [timezone.now()] while the given category is refreshed. *)
Variable now_at : Z -> Z.

(** [_refresh_category_cache(category)]. *)
Definition _refresh_category_cache (category : AffiliateCategory)
    (caches : gmap Z AffiliateProductCache)
    : outcome (gmap Z AffiliateProductCache) :=
  match filters !! cat_id category with
  | None => Returned caches
  | Some filter_rules =>
      match api_get_category_products (node_of category)
              {| f_min_rating := min_rating filter_rules;
                 f_min_review_count := min_review_count filter_rules |} with
      | Raised exc => Raised exc
      | Returned products =>
          let ranked := ProductRanker.rank_products products None in
          let asins := extract_asins ranked in
          let now := now_at (cat_id category) in
          Returned
            (update_or_create caches category
               {| def_cached_asins := take 20 asins;
                  def_product_count := Z.of_nat (length asins);
                  def_is_fresh := true;
                  def_next_refresh := now + timedelta_days 1 |}
               now)
      end
  end.

(** One turn of the [for category in categories] loop, over the caches and
    the two counters [refresh_count] and [error_count] of the task. *)
Definition refresh_step
    (st : gmap Z AffiliateProductCache * refresh_summary)
    (category : AffiliateCategory)
    : gmap Z AffiliateProductCache * refresh_summary :=
  match _refresh_category_cache category st.1 with
  | Returned caches' =>
      (caches', {| refreshed := refreshed st.2 + 1; errors := errors st.2 |})
  | Raised _ =>
      (st.1, {| refreshed := refreshed st.2; errors := errors st.2 + 1 |})
  end.

Definition refresh_loop (categories : list AffiliateCategory)
    (caches : gmap Z AffiliateProductCache)
    : gmap Z AffiliateProductCache * refresh_summary :=
  foldl refresh_step (caches, {| refreshed := 0; errors := 0 |}) categories.

(** [refresh_affiliate_products(category_id=None, tier="all")]: the
    caches after the run and the summary it returns.  The [TaskLog] row
    that the task writes repeats the summary and is left out; so is the
    outer [except] with its retry, since nothing outside the per-category
    [try] raises here. *)
Definition refresh_affiliate_products (table : list AffiliateCategory)
    (category_id : option Z) (tier : string)
    (caches : gmap Z AffiliateProductCache)
    : gmap Z AffiliateProductCache * refresh_summary :=
  refresh_loop (select_categories table category_id tier) caches.

End Tasks.

(** ** Vocabulary of the specification *)

#[global] Instance Qeq_decision (x y : Q) : Decision (x == y)%Q := Qeq_dec x y.

(** The ranking of the specification, on the values the ranker reads with
    [.get]: a missing rating or review count counts as 0, a missing
    best-seller rank as the worst possible one. *)
Definition rating_of (p : product_dict) : Q := default 0%Q (d_rating p).
Definition reviews_of (p : product_dict) : Z := default 0 (d_review_count p).

Definition bsr_lt (a b : option Z) : Prop :=
  match a, b with
  | Some x, Some y => x < y
  | Some _, None => True
  | None, _ => False
  end.

(** [p] ranks strictly in front of [q]: higher rating; or the same rating and
    more reviews; or the same rating and reviews and a better (smaller)
    best-seller rank. *)
Definition ranks_before (p q : product_dict) : Prop :=
  (rating_of q < rating_of p)%Q
  \/ ((rating_of p == rating_of q)%Q
      /\ (reviews_of q < reviews_of p
          \/ (reviews_of p = reviews_of q
              /\ bsr_lt (d_bsr_rank p) (d_bsr_rank q)))).

(** [p] and [q] tie on the three ranking criteria. *)
Definition rank_tied (p q : product_dict) : Prop :=
  (rating_of p == rating_of q)%Q
  /\ reviews_of p = reviews_of q
  /\ d_bsr_rank p = d_bsr_rank q.

(** The rating is absent or strictly below the minimum [m]. *)
Definition rating_below (P : AffiliateProduct) (m : Q) : Prop :=
  match rating P with
  | None => True
  | Some r => (r < m)%Q
  end.

(** The first three checks of the eligibility filter: rating, review count
    and availability. *)
Definition passes_rating_reviews_stock (P : AffiliateProduct)
    (R : AffiliateProductFilter) : bool :=
  match rating P with
  | None => false
  | Some r => Qle_bool (min_rating R) r
  end
  && (min_review_count R <=? review_count P)
  && (negb (in_stock_only R) || in_stock P).

(** The product carries the price [price], which is outside a bound that the
    rule sets. *)
Definition price_out_of_bounds (price : Q) (R : AffiliateProductFilter)
    : Prop :=
  (exists lo, min_price R = Some lo /\ (price < lo)%Q)
  \/ (exists hi, max_price R = Some hi /\ (hi < price)%Q).

(** The three staleness conditions of the cache store, at time [now]. *)
Definition stale_conditions (c : AffiliateProductCache) (now : Z) : Prop :=
  cached_asins c = []
  \/ is_fresh c = false
  \/ (exists t, next_refresh c = Some t /\ t < now).

(** Resolution of identifiers. *)

(** The stored list without the earlier copies of a repeated identifier. *)
Fixpoint keep_last (asins : list string) : list string :=
  match asins with
  | [] => []
  | a :: l => if decide (a ∈ l) then keep_last l else a :: keep_last l
  end.

(** The ACTIVE record of the product table that carries the identifier. *)
Definition active_record (table : list AffiliateProduct) (a : string)
    : option AffiliateProduct :=
  head (filter (fun x => asin x = a /\ status x = ACTIVE) table).

(** The records of the identifiers, one after the other in the order of the
    list, an identifier without an ACTIVE record being passed over. *)
Definition resolve_in_order (table : list AffiliateProduct)
    (asins : list string) : list AffiliateProduct :=
  omap (active_record table) asins.

(** The last position of [a] in [l], counting from [k]. *)
Fixpoint last_index_from (k : nat) (a : string) (l : list string)
    : option nat :=
  match l with
  | [] => None
  | b :: l' =>
      match last_index_from (S k) a l' with
      | Some j => Some j
      | None => if decide (a = b) then Some k else None
      end
  end.

(** The sort key of [get_products]. *)
Definition order_key (asins : list string) (x : AffiliateProduct) : nat :=
  default 999%nat (preserved_order_of asins !! asin x).

(** Order of two positions that are both present. *)
Definition index_lt (i j : option nat) : Prop :=
  match i, j with
  | Some x, Some y => (x < y)%nat
  | _, _ => False
  end.




(** Whether a call raised. *)
Definition is_raised {A} (o : outcome A) : bool :=
  match o with
  | Raised _ => true
  | Returned _ => false
  end.

(** ** Example data *)

Definition example_category (id : Z) (name : string) : AffiliateCategory :=
  {| cat_id := id; cat_name := name; parent := None;
     amazon_category_id := EmptyString; cat_status := CAT_ACTIVE;
     is_featured := false; display_order := 0 |}.

Definition example_table : list AffiliateCategory :=
  [example_category 1 "Equipment"; example_category 2 "Supplements";
   example_category 3 "Clothing"].

Definition example_payload : list product_dict :=
  [{| d_asin := Some "B0NEW00001"; d_rating := Some (45 # 10);
      d_review_count := Some 300; d_bsr_rank := None |};
   {| d_asin := Some "B0NEW00002"; d_rating := Some (48 # 10);
      d_review_count := Some 250; d_bsr_rank := Some 12 |}].

(** A product source that is down for category 2. *)
Definition example_source (node : category_node) (hints : api_filters)
    : outcome (list product_dict) :=
  match node with
  | NodeId 2 => Raised "source unavailable"
  | _ => Returned example_payload
  end.

Definition example_filters : gmap Z AffiliateProductFilter :=
  {[ 1 := FilterService.default_filter; 2 := FilterService.default_filter;
     3 := FilterService.default_filter ]}.

Definition example_row (asins : list string) (msg : string) (n : Z)
    : AffiliateProductCache :=
  {| cached_asins := asins; last_updated := 0; next_refresh := Some 86400;
     is_fresh := true; product_count := Z.of_nat (length asins);
     uses_parent_fallback := false; parent_fallback_asins := [];
     last_error := msg; error_count := n |}.

Definition example_caches : gmap Z AffiliateProductCache :=
  {[ 2 := example_row ["B0OLD00001"] EmptyString 0 ]}.

Definition example_clock (id : Z) : Z := 100000 + id.

Definition example_product (a : string) (r : option Q) (n : Z)
    (st : product_status) : AffiliateProduct :=
  {| asin := a; title := EmptyString; price_gbp := None; rating := r;
     review_count := n; in_stock := true; bsr_rank := None; status := st |}.

Definition example_products : list AffiliateProduct :=
  [example_product "A" (Some (45 # 10)) 300 ACTIVE;
   example_product "B" None 120 ACTIVE;
   example_product "C" (Some (41 # 10)) 950 ACTIVE;
   example_product "D" (Some (49 # 10)) 80 DISCONTINUED].

(** The same rows, handed out in another order. *)
Definition example_fetched : list AffiliateProduct :=
  [example_product "B" None 120 ACTIVE;
   example_product "A" (Some (45 # 10)) 300 ACTIVE;
   example_product "C" (Some (41 # 10)) 950 ACTIVE;
   example_product "D" (Some (49 # 10)) 80 DISCONTINUED].

(** * Further parts of the code *)

(** ** The product source of the repository *)

Module AmazonAPIClient.

(** [AmazonAPIClient.get_category_products(category_node, filters)]: the
    placeholder logs the call and returns the empty list, and so does its
    [except] branch. *)
Definition get_category_products (node : category_node)
    (filters : api_filters) : outcome (list product_dict) :=
  Returned [].

End AmazonAPIClient.

(** ** Cleanup of empty caches ([cleanup_expired_categories]) *)

(** [cache_obj.is_fresh = False; cache_obj.save()] at time [now]
    ([last_updated] is [auto_now]). *)
Definition mark_not_fresh (now : Z) (cache_obj : AffiliateProductCache)
    : AffiliateProductCache :=
  {| cached_asins := cached_asins cache_obj;
     last_updated := now;
     next_refresh := next_refresh cache_obj;
     is_fresh := false;
     product_count := product_count cache_obj;
     uses_parent_fallback := uses_parent_fallback cache_obj;
     parent_fallback_asins := parent_fallback_asins cache_obj;
     last_error := last_error cache_obj;
     error_count := error_count cache_obj |}.

(** [AffiliateProductCache.objects.filter(product_count=0).count()]. *)
Definition count_empty_caches (caches : gmap Z AffiliateProductCache) : Z :=
  Z.of_nat (size (filter (fun kv => product_count kv.2 = 0) caches)).

(** [cleanup_expired_categories()] at time [now]: the caches after the run
    and the [marked_stale] count it returns (the count is queried after the
    loop). *)
Definition cleanup_expired_categories (caches : gmap Z AffiliateProductCache)
    (now : Z) : gmap Z AffiliateProductCache * Z :=
  let caches' :=
    (fun cache_obj =>
       if product_count cache_obj =? 0 then mark_not_fresh now cache_obj
       else cache_obj) <$> caches in
  (caches', count_empty_caches caches').

(** ** Views ([apps/affiliate/views.py]) *)

Module CategoryDetailView.

(** The product entries of the context of the category page. *)
Record product_context := {
  ctx_products : list AffiliateProduct;
  ctx_products_available : bool;
  ctx_product_count : Z;
}.

(** The [try] block of [CategoryDetailView.get_context_data] that reads the
    cache of the category, and its [except] branch. *)
Definition get_context_data (caches : gmap Z AffiliateProductCache)
    (objects : list AffiliateProduct) (category : AffiliateCategory)
    : product_context :=
  match caches !! cat_id category with
  | Some cache =>
      {| ctx_products := take 8 (get_products cache objects);
         ctx_products_available := (0 <? length (cached_asins cache))%nat;
         ctx_product_count := product_count cache |}
  | None =>
      {| ctx_products := [];
         ctx_products_available := false;
         ctx_product_count := 0 |}
  end.

End CategoryDetailView.

(** The rule row read as the [dict] that [meets_filter_criteria] takes. *)
Definition rules_as_dict (R : AffiliateProductFilter) : filter_rules_dict :=
  {| fr_min_rating := Some (min_rating R);
     fr_min_review_count := Some (min_review_count R);
     fr_in_stock_only := Some (in_stock_only R) |}.

(** [R'] asks no more than [R] of a product: lower or equal minima, no
    availability demand that [R] does not make, and each price bound either
    that of [R] or absent. *)
Definition looser_rule (R' R : AffiliateProductFilter) : Prop :=
  (min_rating R' <= min_rating R)%Q
  /\ min_review_count R' <= min_review_count R
  /\ (in_stock_only R' = true -> in_stock_only R = true)
  /\ (min_price R' = min_price R \/ min_price R' = None)
  /\ (max_price R' = max_price R \/ max_price R' = None).


(** ** Helpers ([apps/core/utils.py])

    The text helpers work on the characters of a [str]: a text is a
    [list ascii]. *)

(** The characters of a literal. *)
Definition chars (s : string) : list ascii := String.list_ascii_of_string s.

(** [l[:k]] for an integer [k]: a negative [k] counts from the end. *)
Definition py_slice_to {A} (k : Z) (l : list A) : list A :=
  if 0 <=? k then take (Z.to_nat k) l
  else take (length l - Z.to_nat (- k)) l.

Module TextHelper.

(** [TextHelper.truncate(text, max_length=100, suffix="...")]. *)
Definition truncate (text : list ascii) (max_length : Z)
    (suffix : list ascii) : list ascii :=
  if max_length <? Z.of_nat (length text) then
    py_slice_to (max_length - Z.of_nat (length suffix)) text ++ suffix
  else text.

End TextHelper.

Module CacheHelper.

(** [CacheHelper.cache_key(prefix, identifier)]:
    [f"{prefix}:{identifier}"]. *)
Definition cache_key (prefix identifier : list ascii) : list ascii :=
  prefix ++ chars ":" ++ identifier.

End CacheHelper.

Module URLHelper.

(** [URLHelper.add_utm_params(url, source, medium, campaign)]. *)
Definition add_utm_params (url source medium campaign : list ascii)
    : list ascii :=
  let separator :=
    if bool_decide ("?"%char ∈ url) then chars "&"
    else chars "?" in
  url ++ separator ++ chars "utm_source=" ++ source
    ++ chars "&utm_medium=" ++ medium
    ++ chars "&utm_campaign=" ++ campaign.

(** [URLHelper.amazon_affiliate_link(asin, partner_tag=None)], where
    [env_partner_tag] and [env_region] are what
    [os.getenv("AMAZON_PARTNER_TAG", ...)] and
    [os.getenv("AMAZON_REGION", ...)] return (the empty text and "co.uk"
    when the variables are not set). *)
Definition amazon_affiliate_link (env_partner_tag env_region : list ascii)
    (asin : list ascii) (partner_tag : option (list ascii)) : list ascii :=
  let partner_tag :=
    match partner_tag with
    | None | Some [] => env_partner_tag
    | Some tag => tag
    end in
  let region := env_region in
  let url :=
    chars "https://amazon." ++ region
      ++ chars "/dp/" ++ asin in
  match partner_tag with
  | [] => url
  | _ :: _ => url ++ chars "?tag=" ++ partner_tag
  end.

End URLHelper.

(** ** Blog posts ([AffiliatePost]) *)

Module AffiliatePost.

Inductive post_status := DRAFT | PUBLISHED | ARCHIVED.

Record t := {
  title : string;
  slug : string;
  category : Z;
  status : post_status;
  published_at : option Z;
  view_count : Z;
}.


End AffiliatePost.

(** ** Lead housekeeping ([cleanup_expired_leads]) *)

Module Lead.

Inductive lead_status :=
  NEW | CONTACTED | QUALIFIED | CONVERTED | REJECTED | EXPIRED.

Record t := {
  name : string;
  provider_id : option Z;
  status : lead_status;
  is_billed : bool;
  created_at : Z;
  updated_at : Z;
}.

End Lead.

#[global] Instance lead_status_eq_dec : EqDecision Lead.lead_status.
Proof. solve_decision. Defined.

(** [status__in=["NEW", "CONTACTED"], created_at__lt=cutoff]. *)
Definition lead_is_stale (cutoff : Z) (lead : Lead.t) : bool :=
  (bool_decide (Lead.status lead = Lead.NEW)
   || bool_decide (Lead.status lead = Lead.CONTACTED))
  && (Lead.created_at lead <? cutoff).

(** [cleanup_expired_leads()] at time [now]: the table after
    [.update(status="EXPIRED")] (an [update] does not touch [updated_at])
    and the [expired] count it returns. *)
Definition cleanup_expired_leads (leads : list Lead.t) (now : Z)
    : list Lead.t * Z :=
  let cutoff := now - timedelta_days 30 in
  ((fun lead =>
      if lead_is_stale cutoff lead then
        {| Lead.name := Lead.name lead;
           Lead.provider_id := Lead.provider_id lead;
           Lead.status := Lead.EXPIRED;
           Lead.is_billed := Lead.is_billed lead;
           Lead.created_at := Lead.created_at lead;
           Lead.updated_at := Lead.updated_at lead |}
      else lead) <$> leads,
   Z.of_nat (length (filter (fun lead => lead_is_stale cutoff lead = true)
                       leads))).

(** * Properties *)

(** ** Numbers *)

Lemma Qltb_lt x y : Qltb x y = true <-> (x < y)%Q.
Proof.
  unfold Qltb. rewrite negb_true_iff, <- not_true_iff_false, Qle_bool_iff.
  split; [apply Qnot_le_lt | apply Qlt_not_le].
Qed.

Lemma Qeq_bool_false x y : Qeq_bool x y = false <-> ~ (x == y)%Q.
Proof. rewrite <- not_true_iff_false, Qeq_bool_iff. tauto. Qed.

(** ** Eligibility filter *)

Lemma rating_below_check (P : AffiliateProduct) (m : Q) :
  rating_below P m ->
  match rating P with None => true | Some r => Qltb r m end = true.
Proof.
  unfold rating_below. destruct (rating P) as [r|]; [|done].
  by rewrite Qltb_lt.
Qed.

(** C7.  A product whose rating is absent or strictly below the minimum
    rating of the rule is rejected, whatever its other fields and the other
    fields of the rule; this holds of [FilterService.apply_filter_rules] on a
    rule row and of [AffiliateProduct.meets_filter_criteria] on a rule
    [dict] (whose minimum defaults to 4.0). *)
Theorem low_rating_rejected (P : AffiliateProduct)
    (R : AffiliateProductFilter) (D : filter_rules_dict) :
  (rating_below P (min_rating R) ->
     FilterService.apply_filter_rules P R = false)
  /\ (rating_below P (default 4%Q (fr_min_rating D)) ->
        meets_filter_criteria P D = false).
Proof.
  split; intros H%rating_below_check.
  - unfold FilterService.apply_filter_rules. by rewrite H.
  - unfold meets_filter_criteria. by rewrite H.
Qed.

(** The example of the specification: rating 3.9 against a minimum of 4.0 is
    rejected even with 10,000 reviews, in stock and without a price. *)
Lemma low_rating_rejected_witness :
  let P := {| asin := "B000000001"; title := "Kettlebell";
              price_gbp := None; rating := Some (39 # 10);
              review_count := 10000; in_stock := true; bsr_rank := Some 1;
              status := ACTIVE |} in
  let D := {| fr_min_rating := None; fr_min_review_count := None;
              fr_in_stock_only := Some true |} in
  FilterService.apply_filter_rules P FilterService.default_filter = false
  /\ meets_filter_criteria P D = false.
Proof.
  intros P D.
  destruct (low_rating_rejected P FilterService.default_filter D) as [H1 H2].
  split; [apply H1 | apply H2]; reflexivity.
Defined.

(** The chain of the rating, review-count and availability checks against
    its specification [passes_rating_reviews_stock]. *)
Ltac three_checks :=
  simpl;
  match goal with
  | |- context [rating ?P] => destruct (rating P) as [?r|]; [|done]
  end;
  unfold Qltb;
  match goal with
  | |- context [Qle_bool ?a ?b] => destruct (Qle_bool a b); simpl; [|done]
  end;
  match goal with
  | |- context [review_count ?P <? ?m] =>
      rewrite (Z.leb_antisym (review_count P));
      destruct (review_count P <? m); simpl; [done|]
  end;
  match goal with
  | |- context [in_stock_only ?R] =>
      match goal with
      | |- context [in_stock ?P] => by destruct (in_stock_only R), (in_stock P)
      end
  end.

Lemma apply_filter_rules_no_price (P : AffiliateProduct)
    (R : AffiliateProductFilter) :
  decimal_truthy (price_gbp P) = false ->
  FilterService.apply_filter_rules P R = passes_rating_reviews_stock P R.
Proof.
  intros Hp. unfold FilterService.apply_filter_rules,
    passes_rating_reviews_stock.
  rewrite Hp. three_checks.
Qed.

(** C9.  A product without a price is never rejected on price grounds: the
    verdict is that of the rating, review-count and availability checks
    alone, whatever bounds the rule sets.  And the price bounds are only
    applied to a product that carries a price: when the verdict differs from
    that of the three checks, the product has a price that lies below the
    minimum or above the maximum of the rule. *)
Theorem absent_price_never_rejected (P : AffiliateProduct)
    (R : AffiliateProductFilter) :
  (price_gbp P = None ->
     FilterService.apply_filter_rules P R = passes_rating_reviews_stock P R)
  /\ (FilterService.apply_filter_rules P R <> passes_rating_reviews_stock P R ->
        exists price, price_gbp P = Some price /\ price_out_of_bounds price R).
Proof.
  split.
  - intros Hp. apply apply_filter_rules_no_price. by rewrite Hp.
  - intros Hne. destruct (decimal_truthy (price_gbp P)) eqn:Ht;
      [|by destruct Hne; apply apply_filter_rules_no_price].
    destruct (price_gbp P) as [price|] eqn:Hp; [|done].
    exists price. split; [done|].
    unfold FilterService.apply_filter_rules, passes_rating_reviews_stock in Hne.
    rewrite Hp, Ht in Hne.
    destruct (min_price R) as [lo|] eqn:Hlo.
    + destruct (Qltb price lo) eqn:Hlt.
      { left. exists lo. by rewrite Qltb_lt in Hlt. }
      destruct (max_price R) as [hi|] eqn:Hhi.
      * destruct (Qltb hi price) eqn:Hgt.
        { right. exists hi. by rewrite Qltb_lt in Hgt. }
        exfalso. apply Hne. rewrite !andb_false_r. three_checks.
      * exfalso. apply Hne. rewrite !andb_false_r. three_checks.
    + destruct (max_price R) as [hi|] eqn:Hhi.
      * destruct (Qltb hi price) eqn:Hgt.
        { right. exists hi. by rewrite Qltb_lt in Hgt. }
        exfalso. apply Hne. rewrite !andb_false_r. three_checks.
      * exfalso. apply Hne. three_checks.
Qed.

Lemma absent_price_never_rejected_witness :
  let P := {| asin := "B000000002"; title := "Yoga mat";
              price_gbp := None; rating := Some (45 # 10);
              review_count := 350; in_stock := true; bsr_rank := None;
              status := ACTIVE |} in
  let R := {| min_rating := 4; min_review_count := 200;
              max_bsr_percentile := 10; uk_marketplace_only := true;
              in_stock_only := true; min_price := Some 10%Q;
              max_price := Some 50%Q; is_active := true |} in
  FilterService.apply_filter_rules P R = true.
Proof.
  intros P R.
  destruct (absent_price_never_rejected P R) as [H _].
  rewrite H; reflexivity.
Defined.

(** C10.  The verdict of the eligibility check only depends on five columns
    of the rule: two rules that agree on [min_rating], [min_review_count],
    [in_stock_only], [min_price] and [max_price] give the same verdict on
    every product, however they differ in [max_bsr_percentile],
    [uk_marketplace_only] and [is_active]. *)
Theorem verdict_depends_on_five_fields (P : AffiliateProduct)
    (R1 R2 : AffiliateProductFilter) :
  min_rating R1 = min_rating R2 ->
  min_review_count R1 = min_review_count R2 ->
  in_stock_only R1 = in_stock_only R2 ->
  min_price R1 = min_price R2 ->
  max_price R1 = max_price R2 ->
  FilterService.apply_filter_rules P R1 = FilterService.apply_filter_rules P R2.
Proof.
  intros Hr Hc Hs Hlo Hhi. unfold FilterService.apply_filter_rules.
  by rewrite Hr, Hc, Hs, Hlo, Hhi.
Qed.

Lemma verdict_depends_on_five_fields_witness :
  let P := {| asin := "B000000003"; title := "Resistance bands";
              price_gbp := Some (1999 # 100); rating := Some (46 # 10);
              review_count := 1200; in_stock := true; bsr_rank := Some 40;
              status := ACTIVE |} in
  FilterService.apply_filter_rules P
    {| min_rating := 4; min_review_count := 200; max_bsr_percentile := 1;
       uk_marketplace_only := false; in_stock_only := true;
       min_price := None; max_price := Some 80%Q; is_active := false |}
  = FilterService.apply_filter_rules P
    {| min_rating := 4; min_review_count := 200; max_bsr_percentile := 100;
       uk_marketplace_only := true; in_stock_only := true;
       min_price := None; max_price := Some 80%Q; is_active := true |}.
Proof.
  intros P. apply verdict_depends_on_five_fields; reflexivity.
Defined.

(** ** Staleness *)

Lemma is_cache_stale_iff (c : AffiliateProductCache) (now : Z) :
  is_cache_stale c now = true
  <-> is_fresh c = false \/ (exists t, next_refresh c = Some t /\ t < now).
Proof.
  unfold is_cache_stale. destruct (is_fresh c); simpl; [|by split; auto].
  destruct (next_refresh c) as [t|]; simpl.
  - destruct (Z.ltb_spec t now) as [Hlt|Hge]; split.
    + intros _. right. by exists t.
    + done.
    + done.
    + intros [|(t' & [= <-] & ?)]; [done|lia].
  - split; [done|]. by intros [|(t' & ? & ?)].
Qed.

(** Where C1 fails: a cache whose identifier list is empty, with the
    freshness flag set and the next refresh still ahead, meets one of the
    three conditions, and [is_cache_stale] does not report it. *)
Lemma is_cache_stale_misses_empty_list :
  let c := {| cached_asins := []; last_updated := 0;
              next_refresh := Some 1000; is_fresh := true;
              product_count := 0; uses_parent_fallback := false;
              parent_fallback_asins := []; last_error := EmptyString;
              error_count := 0 |} in
  stale_conditions c 500 /\ is_cache_stale c 500 = false
  /\ ~ (forall (c : AffiliateProductCache) (now : Z),
          is_cache_stale c now = true <-> stale_conditions c now).
Proof.
  intros c. split; [by left|]. split; [done|].
  intros H. specialize (H c 500). destruct H as [_ H].
  discriminate H. by left.
Qed.

(** C1, amended.  The freshness check of the cache service,
    [CacheService.is_cache_fresh], answers "not fresh" exactly when one of
    the three conditions holds (empty identifier list, freshness flag off,
    next refresh in the past), each of them being enough.  The method
    [is_cache_stale] of the cache row answers "stale" exactly when the flag
    is off or the next refresh is in the past, and does not look at the
    identifier list. *)
Theorem staleness_conditions (c : AffiliateProductCache) (now : Z) :
  (CacheService.is_cache_fresh c now = false <-> stale_conditions c now)
  /\ (is_cache_stale c now = true
      <-> is_fresh c = false \/ (exists t, next_refresh c = Some t /\ t < now)).
Proof.
  split; [|apply is_cache_stale_iff].
  unfold CacheService.is_cache_fresh, stale_conditions.
  rewrite <- is_cache_stale_iff.
  destruct (cached_asins c) as [|a asins]; simpl.
  - split; [by left|]. by destruct (is_fresh c).
  - destruct (is_fresh c) eqn:Hf; simpl.
    + rewrite negb_false_iff. split; [by right|]. by intros [|].
    + split; [|done]. intros _. right.
      unfold is_cache_stale. by rewrite Hf.
Qed.

(** ** Sorting *)

Section PySortedFacts.
Context {A : Type} (lt : A -> A -> bool).

Lemma insert_sorted_Permutation x l : insert_sorted lt x l ≡ₚ x :: l.
Proof.
  induction l as [|y l IH]; simpl; [done|].
  destruct (lt y x); [|done]. rewrite IH. apply Permutation_swap.
Qed.

Lemma py_sorted_Permutation l : py_sorted lt l ≡ₚ l.
Proof.
  induction l as [|x l IH]; simpl; [done|].
  by rewrite insert_sorted_Permutation, IH.
Qed.

(** The comparison is a strict weak order. *)
Hypothesis lt_irrefl : forall x, lt x x = false.
Hypothesis lt_trans :
  forall x y z, lt x y = true -> lt y z = true -> lt x z = true.
Hypothesis lt_cotrans :
  forall x y z, lt x z = true -> lt x y = true \/ lt y z = true.

Lemma lt_asym x y : lt x y = true -> lt y x = false.
Proof.
  intros Hxy. destruct (lt y x) eqn:Hyx; [|done].
  by rewrite <- (lt_irrefl x), (lt_trans x y x).
Qed.

Lemma not_after_trans x y z :
  not_after lt x y -> not_after lt y z -> not_after lt x z.
Proof.
  unfold not_after. intros Hyx Hzy.
  destruct (lt z x) eqn:Hzx; [|done].
  destruct (lt_cotrans z y x Hzx); congruence.
Qed.

Lemma insert_sorted_StronglySorted x l :
  StronglySorted (not_after lt) l ->
  StronglySorted (not_after lt) (insert_sorted lt x l).
Proof.
  induction l as [|y l IH]; simpl; intros Hs.
  - by repeat constructor.
  - apply StronglySorted_inv in Hs as [Hl Hy].
    destruct (lt y x) eqn:Hyx.
    + constructor; [by apply IH|].
      rewrite insert_sorted_Permutation. constructor; [|done].
      by apply lt_asym.
    + constructor; [by constructor|].
      constructor; [done|].
      eapply Forall_impl; [exact Hy|]. intros z Hz.
      by apply (not_after_trans x y z).
Qed.

Lemma py_sorted_StronglySorted l :
  StronglySorted (not_after lt) (py_sorted lt l).
Proof.
  induction l as [|x l IH]; simpl; [constructor|].
  by apply insert_sorted_StronglySorted.
Qed.

Lemma tied_not_lt z x y :
  tied lt z x -> tied lt z y -> lt y x = false.
Proof.
  intros [Hzx Hxz] [Hzy Hyz]. destruct (lt y x) eqn:Hyx; [|done].
  destruct (lt_cotrans y z x Hyx); congruence.
Qed.

Lemma filter_tied_insert_sorted z x l :
  filter (tied lt z) (insert_sorted lt x l) = filter (tied lt z) (x :: l).
Proof.
  induction l as [|y l IH]; simpl; [done|].
  destruct (lt y x) eqn:Hyx; [|done].
  rewrite (filter_cons _ y), IH, !filter_cons.
  destruct (decide (tied lt z x)) as [Hx|]; [|done].
  destruct (decide (tied lt z y)) as [Hy|]; [|done].
  by rewrite (tied_not_lt z x y) in Hyx.
Qed.

(** Stability: the elements that tie with a given one come out in the
    order in which they went in. *)
Lemma py_sorted_stable z l :
  filter (tied lt z) (py_sorted lt l) = filter (tied lt z) l.
Proof.
  induction l as [|x l IH]; simpl; [done|].
  by rewrite filter_tied_insert_sorted, !filter_cons, IH.
Qed.

Lemma sorted_stable_eq l1 l2 :
  StronglySorted (not_after lt) l1 ->
  StronglySorted (not_after lt) l2 ->
  l1 ≡ₚ l2 ->
  (forall z, filter (tied lt z) l1 = filter (tied lt z) l2) ->
  l1 = l2.
Proof.
  intros Hs1. revert l2.
  induction Hs1 as [|x l1 Hs1 IH Hx]; intros l2 Hs2 Hperm Hties.
  { symmetry. by apply Permutation_nil. }
  destruct Hs2 as [|y l2 Hs2 Hy]; [by apply Permutation_nil_r in Hperm|].
  assert (tied lt x y) as Hxy.
  { split.
    - assert (x ∈ y :: l2) as [->|Hin]%elem_of_cons
        by (rewrite <- Hperm; by left); [apply lt_irrefl|].
      by eapply Forall_forall in Hy.
    - assert (y ∈ x :: l1) as [->|Hin]%elem_of_cons
        by (rewrite Hperm; by left); [apply lt_irrefl|].
      by eapply Forall_forall in Hx. }
  assert (x = y) as <-.
  { specialize (Hties x). rewrite !filter_cons in Hties.
    rewrite decide_True in Hties by (split; apply lt_irrefl).
    rewrite decide_True in Hties by done. congruence. }
  f_equal. apply IH; [done|by apply (inj (x ::.))|].
  intros z. specialize (Hties z). rewrite !filter_cons in Hties.
  destruct (decide (tied lt z x)); congruence.
Qed.

(** The embedding of [sorted] does not depend on the sorting algorithm:
    every stable sort, that is every sorted permutation of the input that
    keeps tying elements in their order, returns what [py_sorted] returns. *)
Lemma py_sorted_unique l l' :
  l' ≡ₚ l ->
  StronglySorted (not_after lt) l' ->
  (forall z, filter (tied lt z) l' = filter (tied lt z) l) ->
  l' = py_sorted lt l.
Proof.
  intros Hperm Hsorted Hstable. apply sorted_stable_eq; [done|..].
  - apply py_sorted_StronglySorted.
  - by rewrite py_sorted_Permutation.
  - intros z. by rewrite py_sorted_stable.
Qed.
End PySortedFacts.

(** ** Ranker *)

Lemma bsr_key_eqb (a b : option Z) :
  xfloat_eqb
    match a with
    | Some x => Fin (inject_Z x * (3 # 10))
    | None => inf_times (3 # 10)
    end
    match b with
    | Some x => Fin (inject_Z x * (3 # 10))
    | None => inf_times (3 # 10)
    end
  = bool_decide (a = b).
Proof.
  destruct a as [x|], b as [y|]; simpl; try done.
  case_bool_decide as H.
  - injection H as ->. apply Qeq_bool_iff. reflexivity.
  - apply Qeq_bool_false. intros Heq. apply H. f_equal.
    apply inject_Z_injective. lra.
Qed.

Lemma bsr_key_ltb (a b : option Z) :
  xfloat_ltb
    match a with
    | Some x => Fin (inject_Z x * (3 # 10))
    | None => inf_times (3 # 10)
    end
    match b with
    | Some x => Fin (inject_Z x * (3 # 10))
    | None => inf_times (3 # 10)
    end
  = true <-> bsr_lt a b.
Proof.
  destruct a as [x|], b as [y|]; simpl; try done.
  rewrite Qltb_lt, (Zlt_Qlt x y). split; intros; lra.
Qed.

(** The comparison of the weighted key tuples is the ranking of the
    specification. *)
Lemma rank_lt_spec (p q : product_dict) :
  rank_lt p q = true <-> ranks_before p q.
Proof.
  unfold rank_lt, tuple_ltb, ProductRanker.rank_key, ranks_before.
  fold (rating_of p) (rating_of q) (reviews_of p) (reviews_of q). simpl.
  destruct (Qeq_bool _ _) eqn:Hr at 1; simpl.
  - apply Qeq_bool_iff in Hr.
    assert (rating_of p == rating_of q)%Q as Hreq by lra.
    destruct (Qeq_bool _ _) eqn:Hv at 1; simpl.
    + apply Qeq_bool_iff in Hv.
      assert (reviews_of p = reviews_of q) as Hveq
        by (apply inject_Z_injective; lra).
      rewrite bsr_key_eqb. case_bool_decide as Hb; simpl.
      * split; [done|]. rewrite Hb.
        intros [?|[_ [?|[_ Hlt]]]]; [exfalso; lra|exfalso; lia|].
        destruct (d_bsr_rank q); simpl in Hlt; [lia|done].
      * rewrite bsr_key_ltb. split.
        -- intros Hlt. right. split; [done|]. by right.
        -- intros [?|[_ [?|[_ Hlt]]]]; [exfalso; lra|exfalso; lia|done].
    + apply Qeq_bool_false in Hv. rewrite Qltb_lt. split.
      * intros Hlt. right. split; [done|]. left.
        rewrite Zlt_Qlt. lra.
      * intros [?|[_ [Hlt|[Heq _]]]]; [lra| |].
        -- rewrite Zlt_Qlt in Hlt. lra.
        -- destruct Hv. rewrite Heq. reflexivity.
  - apply Qeq_bool_false in Hr. rewrite Qltb_lt. split.
    + intros Hlt. left. lra.
    + intros [?|[Heq _]]; [lra|]. destruct Hr. lra.
Qed.

Lemma ranks_before_total (p q : product_dict) :
  ranks_before p q \/ rank_tied p q \/ ranks_before q p.
Proof.
  unfold ranks_before, rank_tied.
  destruct (Q_dec (rating_of p) (rating_of q)) as [[Hr|Hr]|Hr]; [auto|auto|].
  destruct (Z.lt_trichotomy (reviews_of p) (reviews_of q)) as [Hv|[Hv|Hv]].
  - right; right; right. split; [by symmetry|]. by left.
  - destruct (d_bsr_rank p) as [x|] eqn:Hp, (d_bsr_rank q) as [y|] eqn:Hq;
      simpl.
    + destruct (Z.lt_trichotomy x y) as [Hb|[Hb|Hb]].
      * left. right. split; [done|]. right. by split.
      * right; left. by rewrite Hb.
      * right; right; right. split; [by symmetry|]. right. by split.
    + left. right. split; [done|]. right. by split.
    + right; right; right. split; [by symmetry|]. right. by split.
    + by right; left.
  - left. right. split; [done|]. by left.
Qed.

Lemma rank_tied_not_before (p q : product_dict) :
  rank_tied p q -> ~ ranks_before p q.
Proof.
  intros (Hr & Hv & Hb) [?|[_ [?|[_ Hlt]]]]; [lra|lia|].
  rewrite Hb in Hlt. destruct (d_bsr_rank q); simpl in Hlt; [lia|done].
Qed.

Lemma rank_tied_sym (p q : product_dict) : rank_tied p q -> rank_tied q p.
Proof. intros (Hr & Hv & Hb). by repeat split. Qed.

Lemma ranks_before_irrefl (p : product_dict) : ~ ranks_before p p.
Proof. apply rank_tied_not_before. by repeat split. Qed.

Lemma bsr_lt_trans (a b c : option Z) : bsr_lt a b -> bsr_lt b c -> bsr_lt a c.
Proof. destruct a, b, c; simpl; try done. lia. Qed.

Lemma ranks_before_trans (p q r : product_dict) :
  ranks_before p q -> ranks_before q r -> ranks_before p r.
Proof.
  unfold ranks_before.
  intros [H1|[E1 [H1|[F1 H1]]]] [H2|[E2 [H2|[F2 H2]]]];
    try (left; lra); right; (split; [lra|]);
    try (left; lia).
  right. split; [lia|]. by apply (bsr_lt_trans _ (d_bsr_rank q)).
Qed.

Lemma ranks_before_tied_l (p q r : product_dict) :
  rank_tied p q -> ranks_before q r -> ranks_before p r.
Proof.
  unfold ranks_before. intros (Hr & Hv & Hb) [H|[E [H|[F H]]]].
  - left. lra.
  - right. split; [lra|]. left. lia.
  - right. split; [lra|]. right. split; [lia|]. by rewrite Hb.
Qed.

Lemma ranks_before_cotrans (p q r : product_dict) :
  ranks_before p r -> ranks_before p q \/ ranks_before q r.
Proof.
  intros Hpr. destruct (ranks_before_total p q) as [?|[Ht|Hqp]]; [by left| |].
  - right. by apply (ranks_before_tied_l q p r); [apply rank_tied_sym|].
  - right. by apply (ranks_before_trans q p r).
Qed.

Lemma rank_lt_false (p q : product_dict) :
  rank_lt p q = false <-> ~ ranks_before p q.
Proof. by rewrite <- not_true_iff_false, rank_lt_spec. Qed.

Lemma rank_lt_irrefl p : rank_lt p p = false.
Proof. apply rank_lt_false, ranks_before_irrefl. Qed.

Lemma rank_lt_trans p q r :
  rank_lt p q = true -> rank_lt q r = true -> rank_lt p r = true.
Proof. rewrite !rank_lt_spec. apply ranks_before_trans. Qed.

Lemma rank_lt_cotrans p q r :
  rank_lt p r = true -> rank_lt p q = true \/ rank_lt q r = true.
Proof. rewrite !rank_lt_spec. apply ranks_before_cotrans. Qed.



Lemma StronglySorted_mono {A} (R1 R2 : relation A) (l : list A) :
  (forall x y, R1 x y -> R2 x y) -> StronglySorted R1 l -> StronglySorted R2 l.
Proof.
  intros HR. induction 1 as [|x l Hl IH Hx]; constructor; [done|].
  eapply Forall_impl; [exact Hx|]. apply HR.
Qed.

Lemma rank_products_default (products : list product_dict) :
  ProductRanker.rank_products products None = py_sorted rank_lt products.
Proof. reflexivity. Qed.



(** ** Resolution of cached identifiers *)

Lemma foldl_insert_lookup (l : list string) (k : nat) (m : gmap string nat)
    (b : string) :
  foldl (fun m ia => <[ia.2 := ia.1]> m) m
    (imap (fun j a => ((k + j)%nat, a)) l) !! b
  = match last_index_from k b l with
    | Some j => Some j
    | None => m !! b
    end.
Proof.
  revert k m. induction l as [|a l IH]; intros k m; simpl; [done|].
  rewrite (imap_ext _ (fun j a => ((S k + j)%nat, a)))
    by (intros; simpl; f_equal; lia).
  rewrite IH. destruct (last_index_from (S k) b l) as [j|]; [done|].
  rewrite Nat.add_0_r, lookup_insert. by repeat case_decide.
Qed.

Lemma preserved_order_of_lookup (asins : list string) (b : string) :
  preserved_order_of asins !! b = last_index_from 0 b asins.
Proof.
  unfold preserved_order_of.
  rewrite (imap_ext _ (fun j a => ((0 + j)%nat, a)) asins) by done.
  rewrite foldl_insert_lookup. by destruct (last_index_from 0 b asins).
Qed.

Lemma last_index_from_Some (k : nat) (a : string) (l : list string) (j : nat) :
  last_index_from k a l = Some j ->
  exists i, j = (k + i)%nat /\ l !! i = Some a.
Proof.
  revert k. induction l as [|b l IH]; intros k; simpl; [done|].
  destruct (last_index_from (S k) a l) as [j'|] eqn:Hl.
  - intros [= ->]. destruct (IH _ Hl) as (i & -> & Hi).
    exists (S i). split; [lia|done].
  - case_decide as Hab; [|done]. intros [= <-]. exists 0%nat.
    split; [lia|]. by rewrite Hab.
Qed.

Lemma last_index_from_elem (k : nat) (a : string) (l : list string) :
  a ∈ l -> is_Some (last_index_from k a l).
Proof.
  revert k. induction l as [|b l IH]; intros k; [by intros ?%elem_of_nil|].
  simpl. intros [->|Hin]%elem_of_cons.
  - destruct (last_index_from (S k) b l); [done|]. by rewrite decide_True.
  - destruct (IH (S k) Hin) as [j ->]. done.
Qed.

Lemma last_index_from_not_elem (k : nat) (a : string) (l : list string) :
  a ∉ l -> last_index_from k a l = None.
Proof.
  intros Hn. destruct (last_index_from k a l) as [j|] eqn:H; [|done].
  destruct (last_index_from_Some _ _ _ _ H) as (i & _ & Hi).
  destruct Hn. by eapply list_elem_of_lookup_2.
Qed.

Lemma keep_last_elem (a : string) (l : list string) :
  a ∈ keep_last l <-> a ∈ l.
Proof.
  induction l as [|b l IH]; simpl; [done|].
  case_decide as Hb; rewrite ?elem_of_cons, IH, ?elem_of_cons; [|done].
  split; [by right|]. by intros [->|].
Qed.

Lemma keep_last_NoDup (l : list string) : NoDup (keep_last l).
Proof.
  induction l as [|b l IH]; simpl; [constructor|].
  case_decide as Hb; [done|]. constructor; [|done].
  by rewrite keep_last_elem.
Qed.

Lemma keep_last_sublist (l : list string) : keep_last l `sublist_of` l.
Proof.
  induction l as [|b l IH]; simpl; [done|].
  case_decide; by constructor.
Qed.

Lemma keep_last_id (l : list string) : NoDup l -> keep_last l = l.
Proof.
  induction 1 as [|b l Hb _ IH]; simpl; [done|].
  by rewrite decide_False, IH.
Qed.

Lemma StronglySorted_mono_elem {A} (R1 R2 : relation A) (l : list A) :
  (forall x y, x ∈ l -> y ∈ l -> R1 x y -> R2 x y) ->
  StronglySorted R1 l -> StronglySorted R2 l.
Proof.
  intros HR Hs. induction Hs as [|x l Hl IH Hx]; constructor.
  - apply IH. intros y z Hy Hz. apply HR; by right.
  - apply Forall_forall. intros y Hy. apply HR; [by left|by right|].
    by eapply Forall_forall in Hx.
Qed.

Lemma keep_last_sorted (k : nat) (l : list string) :
  StronglySorted
    (fun a b => index_lt (last_index_from k a l) (last_index_from k b l))
    (keep_last l).
Proof.
  revert k. induction l as [|c l IH]; intros k; simpl; [constructor|].
  assert (forall x, x ∈ keep_last l ->
            exists j, last_index_from (S k) x l = Some j /\ (k < j)%nat)
    as Hidx.
  { intros x Hx. apply (proj1 (keep_last_elem x l)) in Hx.
    destruct (last_index_from_elem (S k) x l Hx) as [j Hj].
    exists j. split; [done|].
    destruct (last_index_from_Some _ _ _ _ Hj) as (i & -> & _). lia. }
  assert (StronglySorted
            (fun a b =>
               index_lt
                 match last_index_from (S k) a l with
                 | Some j => Some j
                 | None => if decide (a = c) then Some k else None
                 end
                 match last_index_from (S k) b l with
                 | Some j => Some j
                 | None => if decide (b = c) then Some k else None
                 end) (keep_last l)) as Htail.
  { eapply StronglySorted_mono_elem; [|apply (IH (S k))].
    intros x y Hx Hy. simpl.
    destruct (Hidx x Hx) as (i & -> & _), (Hidx y Hy) as (j & -> & _). done. }
  case_decide as Hc; [done|].
  constructor; [done|]. apply Forall_forall. intros y Hy.
  rewrite (last_index_from_not_elem _ _ _ Hc), decide_True by done.
  destruct (Hidx y Hy) as (j & -> & ?). done.
Qed.

Lemma NoDup_omap {A B} (f : A -> option B) (g : B -> A) (l : list A) :
  (forall a x, f a = Some x -> g x = a) -> NoDup l -> NoDup (omap f l).
Proof.
  intros Hfg. induction 1 as [|a l Ha _ IH]; simpl; [constructor|].
  destruct (f a) as [x|] eqn:Hfa; [|done].
  constructor; [|done]. rewrite list_elem_of_omap.
  intros (b & Hb & Hfb). apply Ha.
  by rewrite <- (Hfg _ _ Hfa), (Hfg _ _ Hfb).
Qed.

Lemma StronglySorted_omap {A B} (R : relation A) (R' : relation B)
    (f : A -> option B) (l : list A) :
  (forall a b x y, f a = Some x -> f b = Some y -> R a b -> R' x y) ->
  StronglySorted R l -> StronglySorted R' (omap f l).
Proof.
  intros HR. induction 1 as [|a l _ IH Ha]; simpl; [constructor|].
  destruct (f a) as [x|] eqn:Hfa; [|done].
  constructor; [done|]. apply Forall_forall.
  intros y (b & Hb & Hfb)%list_elem_of_omap.
  eapply HR; [done..|]. by eapply Forall_forall in Ha.
Qed.

Lemma sublist_omap_fmap {A B} (f : A -> option B) (g : B -> A) (l : list A) :
  (forall a x, f a = Some x -> g x = a) -> g <$> omap f l `sublist_of` l.
Proof.
  intros Hfg. induction l as [|a l IH]; simpl; [done|].
  destruct (f a) as [x|] eqn:Hfa; simpl.
  - rewrite (Hfg _ _ Hfa). by constructor.
  - by constructor.
Qed.

Lemma filter_asin_in_active_Permutation (asins : list string)
    (l1 l2 : list AffiliateProduct) :
  l1 ≡ₚ l2 ->
  filter_asin_in_active asins l1 ≡ₚ filter_asin_in_active asins l2.
Proof. unfold filter_asin_in_active. by intros ->. Qed.

Section Resolve.
Variable table : list AffiliateProduct.
Hypothesis table_unique : NoDup (asin <$> table).

Lemma asin_inj (x y : AffiliateProduct) :
  x ∈ table -> y ∈ table -> asin x = asin y -> x = y.
Proof.
  intros [i Hi]%list_elem_of_lookup_1 [j Hj]%list_elem_of_lookup_1 Heq.
  assert (i = j) as ->; [|congruence].
  apply (NoDup_lookup (asin <$> table) i j (asin x)); [done|..];
    rewrite list_lookup_fmap.
  - by rewrite Hi.
  - by rewrite Hj, Heq.
Qed.

Lemma active_record_Some (a : string) (x : AffiliateProduct) :
  active_record table a = Some x
  <-> x ∈ table /\ asin x = a /\ status x = ACTIVE.
Proof.
  unfold active_record. split.
  - intros Hh%head_Some_elem_of. apply list_elem_of_filter in Hh. tauto.
  - intros (Hx & Ha & Hs).
    assert (x ∈ filter (fun x => asin x = a /\ status x = ACTIVE) table)
      as Hin by (by apply list_elem_of_filter).
    destruct (filter _ table) as [|x' l] eqn:Hf; [by apply elem_of_nil in Hin|].
    simpl. f_equal.
    assert (x' ∈ filter (fun x => asin x = a /\ status x = ACTIVE) table)
      as Hin' by (rewrite Hf; by left).
    apply list_elem_of_filter in Hin' as ((Ha' & _) & Hx').
    apply asin_inj; [done..|]. by rewrite Ha, Ha'.
Qed.

Lemma active_record_asin (a : string) (x : AffiliateProduct) :
  active_record table a = Some x -> asin x = a.
Proof. rewrite active_record_Some. tauto. Qed.

Lemma resolve_in_order_elem (asins : list string) (x : AffiliateProduct) :
  x ∈ resolve_in_order table asins
  <-> x ∈ table /\ asin x ∈ asins /\ status x = ACTIVE.
Proof.
  unfold resolve_in_order. rewrite list_elem_of_omap. split.
  - intros (a & Ha & (Hx & <- & Hs)%active_record_Some). done.
  - intros (Hx & Ha & Hs). exists (asin x). split; [done|].
    by apply active_record_Some.
Qed.

Lemma resolve_in_order_Permutation (asins : list string) :
  resolve_in_order table (keep_last asins)
  ≡ₚ filter_asin_in_active asins table.
Proof.
  apply NoDup_Permutation.
  - apply (NoDup_omap _ asin); [apply active_record_asin|].
    apply keep_last_NoDup.
  - apply NoDup_filter. by apply (NoDup_fmap_1 asin).
  - intros x. rewrite resolve_in_order_elem, keep_last_elem.
    unfold filter_asin_in_active. rewrite list_elem_of_filter. tauto.
Qed.

Lemma order_key_index (asins : list string) (x : AffiliateProduct) :
  asin x ∈ asins ->
  last_index_from 0 (asin x) asins = Some (order_key asins x).
Proof.
  intros Hin. unfold order_key. rewrite preserved_order_of_lookup.
  by destruct (last_index_from_elem 0 _ _ Hin) as [j ->].
Qed.

Lemma order_key_inj (asins : list string) (x y : AffiliateProduct) :
  x ∈ table -> y ∈ table -> asin x ∈ asins -> asin y ∈ asins ->
  order_key asins x = order_key asins y -> x = y.
Proof.
  intros Hx Hy Hax Hay Hk. apply asin_inj; [done..|].
  apply order_key_index in Hax, Hay. rewrite Hk in Hax.
  apply last_index_from_Some in Hax as (i & Hki & Hi).
  apply last_index_from_Some in Hay as (j & Hkj & Hj).
  assert (i = j) as -> by lia. congruence.
Qed.

Lemma resolve_in_order_sorted (asins : list string) :
  StronglySorted
    (fun x y => (order_key asins x < order_key asins y)%nat)
    (resolve_in_order table (keep_last asins)).
Proof.
  eapply StronglySorted_omap; [|apply (keep_last_sorted 0 asins)].
  intros a b x y Hx Hy. simpl.
  destruct (last_index_from 0 a asins) as [i|] eqn:Hi; [|done].
  destruct (last_index_from 0 b asins) as [j|] eqn:Hj; [|done].
  simpl. apply active_record_asin in Hx, Hy. subst a b.
  unfold order_key. by rewrite !preserved_order_of_lookup, Hi, Hj.
Qed.

Lemma get_products_resolve (self : AffiliateProductCache)
    (fetched : list AffiliateProduct) :
  fetched ≡ₚ table ->
  get_products self fetched
  = resolve_in_order table (keep_last (cached_asins self)).
Proof.
  intros Hperm. unfold get_products.
  destruct (cached_asins self) as [|a0 asins0] eqn:Hasins; [done|].
  rewrite <- Hasins. set (asins := cached_asins self). clearbody asins.
  clear Hasins a0 asins0. fold (order_key asins).
  set (lt x y := (order_key asins x <? order_key asins y)%nat).
  symmetry.
  apply (StronglySorted_unique_strong (not_after lt)).
  - intros x y Hx Hy Hxy Hyx.
    apply resolve_in_order_elem in Hx as (Hx & Hax & _).
    rewrite py_sorted_Permutation,
      (filter_asin_in_active_Permutation _ _ _ Hperm) in Hy.
    apply list_elem_of_filter in Hy as ((Hay & _) & Hy).
    apply (proj1 (keep_last_elem _ _)) in Hax.
    apply (order_key_inj asins); [done..|].
    unfold not_after, lt in Hxy, Hyx.
    apply Nat.ltb_ge in Hxy, Hyx. lia.
  - eapply StronglySorted_mono; [|apply resolve_in_order_sorted].
    intros x y Hxy. simpl in Hxy. unfold not_after, lt.
    apply Nat.ltb_ge. lia.
  - apply py_sorted_StronglySorted; unfold lt; intros.
    + apply Nat.ltb_irrefl.
    + apply Nat.ltb_lt. apply Nat.ltb_lt in H, H0. lia.
    + rewrite !Nat.ltb_lt in *. lia.
  - by rewrite py_sorted_Permutation,
      (filter_asin_in_active_Permutation _ _ _ Hperm),
      resolve_in_order_Permutation.
Qed.
End Resolve.

(** C5.  Whatever the order in which the rows come out of the product table
    (rows with unique identifiers), [get_products] returns the ACTIVE records
    of the stored identifiers in the order of the stored list: identifier
    after identifier, one without an ACTIVE record being passed over
    silently.  A repeated identifier yields its record once, at its last
    position, so that the identifiers of the result always form a
    subsequence of the stored list. *)
Theorem get_products_preserves_order (self : AffiliateProductCache)
    (table fetched : list AffiliateProduct) :
  NoDup (asin <$> table) ->
  fetched ≡ₚ table ->
  get_products self fetched
    = resolve_in_order table (keep_last (cached_asins self))
  /\ (NoDup (cached_asins self) ->
        get_products self fetched
        = resolve_in_order table (cached_asins self))
  /\ asin <$> get_products self fetched `sublist_of` cached_asins self.
Proof.
  intros Hu Hperm.
  pose proof (get_products_resolve table Hu self fetched Hperm) as Heq.
  split; [done|]. split.
  - intros Hnd. by rewrite Heq, keep_last_id.
  - rewrite Heq. etrans; [|apply keep_last_sublist].
    apply sublist_omap_fmap, active_record_asin, Hu.
Qed.

Lemma get_products_preserves_order_witness :
  get_products (example_row ["C"; "E"; "A"; "D"; "B"] EmptyString 0)
    example_fetched
  = [example_product "C" (Some (41 # 10)) 950 ACTIVE;
     example_product "A" (Some (45 # 10)) 300 ACTIVE;
     example_product "B" None 120 ACTIVE].
Proof.
  assert (NoDup (asin <$> example_products)) as Hnd
    by (by apply (bool_decide_unpack _)).
  assert (example_fetched ≡ₚ example_products) as Hperm
    by apply Permutation_swap.
  destruct (get_products_preserves_order
              (example_row ["C"; "E"; "A"; "D"; "B"] EmptyString 0)
              example_products example_fetched Hnd Hperm) as (_ & H & _).
  rewrite H; [reflexivity|]. by apply (bool_decide_unpack _).
Defined.

(** ** Fallback *)











(** ** Refresh orchestrator *)

Section TasksFacts.
Variable api : category_node -> api_filters -> outcome (list product_dict).
Variable filters : gmap Z AffiliateProductFilter.
Variable now_at : Z -> Z.

Lemma update_or_create_other caches category defaults now k :
  k <> cat_id category ->
  update_or_create caches category defaults now !! k = caches !! k.
Proof. intros Hk. unfold update_or_create. by rewrite lookup_insert_ne. Qed.

Lemma update_or_create_agree caches1 caches2 category defaults now :
  caches1 !! cat_id category = caches2 !! cat_id category ->
  update_or_create caches1 category defaults now !! cat_id category
  = update_or_create caches2 category defaults now !! cat_id category.
Proof.
  intros Heq. unfold update_or_create. by rewrite !lookup_insert_eq, Heq.
Qed.

(** A refresh only touches the row of its own category. *)
Lemma refresh_other category caches written k :
  _refresh_category_cache api filters now_at category caches
  = Returned written ->
  k <> cat_id category -> written !! k = caches !! k.
Proof.
  unfold _refresh_category_cache. intros Hr Hk.
  destruct (filters !! cat_id category) as [rules|]; [|by injection Hr as <-].
  destruct (api _ _) as [products|exc]; [|done].
  injection Hr as <-. by apply update_or_create_other.
Qed.

(** What a refresh does to the row of its category only depends on that
    row. *)
Lemma refresh_agree category caches1 caches2 :
  caches1 !! cat_id category = caches2 !! cat_id category ->
  match _refresh_category_cache api filters now_at category caches1,
        _refresh_category_cache api filters now_at category caches2 with
  | Raised e1, Raised e2 => e1 = e2
  | Returned w1, Returned w2 =>
      w1 !! cat_id category = w2 !! cat_id category
  | _, _ => False
  end.
Proof.
  intros Heq. unfold _refresh_category_cache.
  destruct (filters !! cat_id category) as [rules|]; [|done].
  destruct (api _ _) as [products|exc]; [|done].
  by apply update_or_create_agree.
Qed.

(** Whether a refresh raises does not depend on the caches. *)
Lemma is_raised_agree category caches1 caches2 :
  is_raised (_refresh_category_cache api filters now_at category caches1)
  = is_raised (_refresh_category_cache api filters now_at category caches2).
Proof.
  unfold _refresh_category_cache.
  destruct (filters !! cat_id category) as [rules|]; [|done].
  by destruct (api _ _).
Qed.

(** The loop, from any caches and counters: every category ends as its own
    refresh leaves it, the others are not touched, and the counters add
    up. *)
Lemma refresh_loop_from (categories : list AffiliateCategory)
    (caches : gmap Z AffiliateProductCache) (s : refresh_summary) :
  NoDup (cat_id <$> categories) ->
  let r := foldl (refresh_step api filters now_at) (caches, s) categories in
  (forall c, c ∈ categories ->
     match _refresh_category_cache api filters now_at c caches with
     | Raised _ => r.1 !! cat_id c = caches !! cat_id c
     | Returned written => r.1 !! cat_id c = written !! cat_id c
     end)
  /\ (forall k, k ∉ cat_id <$> categories -> r.1 !! k = caches !! k)
  /\ errors r.2
     = errors s
       + Z.of_nat (length (filter
           (fun c => is_raised
                       (_refresh_category_cache api filters now_at c caches)
                     = true) categories))
  /\ refreshed r.2 + errors r.2
     = refreshed s + errors s + Z.of_nat (length categories).
Proof.
  revert caches s. induction categories as [|c cs IH]; intros caches s Hnd.
  { simpl. repeat split; [by intros c ?%elem_of_nil|lia..]. }
  rewrite fmap_cons in Hnd. apply NoDup_cons in Hnd as [Hc Hnd].
  simpl. set (st := refresh_step api filters now_at (caches, s) c).
  destruct (IH st.1 st.2 Hnd) as (Hrows & Hframe & Herr & Htot).
  rewrite <- surjective_pairing in Hrows, Hframe, Herr, Htot.
  assert (forall k, k <> cat_id c -> st.1 !! k = caches !! k) as Hst.
  { intros k Hk. subst st. unfold refresh_step. simpl.
    destruct (_refresh_category_cache _ _ _ c caches)
      as [written|exc] eqn:Hr; [|done].
    by apply (refresh_other c). }
  assert (forall c', c' ∈ cs -> cat_id c' <> cat_id c) as Hne.
  { intros c' Hc' Heq. apply Hc. rewrite <- Heq.
    by apply list_elem_of_fmap_2. }
  split; [|split; [|split]].
  - intros c' [->|Hc']%elem_of_cons.
    + rewrite (Hframe _ Hc). subst st. unfold refresh_step. simpl.
      by destruct (_refresh_category_cache _ _ _ c caches).
    + specialize (Hrows c' Hc').
      pose proof (refresh_agree c' st.1 caches (Hst _ (Hne _ Hc'))) as Hag.
      destruct (_refresh_category_cache _ _ _ c' st.1),
        (_refresh_category_cache _ _ _ c' caches); try done.
      * by rewrite Hrows.
      * rewrite Hrows. by apply Hst, Hne.
  - intros k Hk. apply not_elem_of_cons in Hk as [Hkc Hk].
    rewrite (Hframe _ Hk). by apply Hst.
  - rewrite Herr, filter_cons.
    rewrite (list_filter_iff _
               (fun c0 =>
                  is_raised
                    (_refresh_category_cache api filters now_at c0 caches)
                  = true) cs)
      by (intros c0; by rewrite (is_raised_agree c0 st.1 caches)).
    subst st. unfold refresh_step. simpl.
    destruct (_refresh_category_cache _ _ _ c caches); simpl; lia.
  - rewrite Htot. subst st. unfold refresh_step. simpl.
    destruct (_refresh_category_cache _ _ _ c caches); simpl; lia.
Qed.
End TasksFacts.

Lemma select_categories_sublist (table : list AffiliateCategory)
    (category_id : option Z) (tier : string) :
  select_categories table category_id tier `sublist_of` table.
Proof.
  unfold select_categories.
  repeat case_match;
    try (etrans; [apply sublist_take|]); apply sublist_filter.
Qed.








(** C3, amended.  For a category without a rule row,
    [FilterService.get_filter_rules] returns the rule with the documented
    defaults (minimum rating 4.0, 200 reviews, in-stock only).  The refresh
    pipeline does not use it: [_refresh_category_cache] returns without
    calling the source and leaves the caches as they are, which the batch
    counts as a refreshed category and not as an error. *)
Theorem missing_rule_skips_refresh
    (api : category_node -> api_filters -> outcome (list product_dict))
    (filters : gmap Z AffiliateProductFilter) (now_at : Z -> Z)
    (category : AffiliateCategory) (caches : gmap Z AffiliateProductCache)
    (summary : refresh_summary) :
  filters !! cat_id category = None ->
  (let rules := FilterService.get_filter_rules filters category in
   rules = FilterService.default_filter
   /\ (min_rating rules == 4)%Q /\ min_review_count rules = 200
   /\ in_stock_only rules = true)
  /\ _refresh_category_cache api filters now_at category caches
     = Returned caches
  /\ refresh_step api filters now_at (caches, summary) category
     = (caches, {| refreshed := refreshed summary + 1;
                   errors := errors summary |}).
Proof.
  intros Hnone. unfold FilterService.get_filter_rules, refresh_step,
    _refresh_category_cache. simpl. rewrite Hnone. done.
Qed.

Lemma missing_rule_skips_refresh_witness :
  _refresh_category_cache example_source {[ 2 := FilterService.default_filter ]}
    example_clock (example_category 1 "Equipment") example_caches
  = Returned example_caches.
Proof.
  assert (({[ 2 := FilterService.default_filter ]}
             : gmap Z AffiliateProductFilter)
          !! cat_id (example_category 1 "Equipment") = None) as Hnone
    by (vm_compute; reflexivity).
  by destruct (missing_rule_skips_refresh example_source _ example_clock
                 _ example_caches {| refreshed := 0; errors := 0 |} Hnone)
    as (_ & H & _).
Defined.

(** Where C3 fails: the source has products for the category, but without a
    rule row no cache row is written, whereas with the default rule stored
    as its row the same refresh writes one. *)
Lemma missing_rule_not_refreshed :
  let category := example_category 1 "Equipment" in
  example_source (node_of category)
    {| f_min_rating := min_rating FilterService.default_filter;
       f_min_review_count := min_review_count FilterService.default_filter |}
  = Returned example_payload
  /\ _refresh_category_cache example_source ∅ example_clock category ∅
     = Returned ∅
  /\ exists written,
       _refresh_category_cache example_source
         {[ 1 := FilterService.default_filter ]} example_clock category ∅
       = Returned written
       /\ cached_asins <$> written !! 1
          = Some ["B0NEW00002"; "B0NEW00001"].
Proof.
  split; [done|]. split; [done|].
  eexists. split; [reflexivity|]. by vm_compute.
Qed.

(** * Further properties *)

(** ** Write, then read *)

Lemma refresh_written
    (api : category_node -> api_filters -> outcome (list product_dict))
    (filters : gmap Z AffiliateProductFilter) (now_at : Z -> Z)
    (category : AffiliateCategory) (caches : gmap Z AffiliateProductCache)
    (rules : AffiliateProductFilter) (products : list product_dict) :
  filters !! cat_id category = Some rules ->
  api (node_of category)
    {| f_min_rating := min_rating rules;
       f_min_review_count := min_review_count rules |}
  = Returned products ->
  let asins := extract_asins (ProductRanker.rank_products products None) in
  exists row,
    _refresh_category_cache api filters now_at category caches
    = Returned (<[cat_id category := row]> caches)
    /\ cached_asins row = take 20 asins
    /\ product_count row = Z.of_nat (length asins)
    /\ is_fresh row = true
    /\ next_refresh row = Some (now_at (cat_id category) + 86400).
Proof.
  intros Hrules Hapi asins. unfold _refresh_category_cache.
  rewrite Hrules, Hapi. unfold update_or_create.
  eexists. split; [reflexivity|].
  by destruct (caches !! cat_id category).
Qed.

Lemma is_cache_stale_time (c : AffiliateProductCache) (t t' : Z) :
  is_cache_stale c t = true -> t <= t' -> is_cache_stale c t' = true.
Proof.
  rewrite !is_cache_stale_iff. intros [?|(r & Hr & Hlt)] Hle; [by left|].
  right. exists r. split; [done|lia].
Qed.

(** X7.  Time only makes a cache staler: a cache that [is_cache_stale] at some
    time is stale at every later time, and a cache that [is_cache_fresh] at
    some time was fresh at every earlier time. *)
Theorem staleness_is_monotone (c : AffiliateProductCache) (t t' : Z) :
  t <= t' ->
  (is_cache_stale c t = true -> is_cache_stale c t' = true)
  /\ (CacheService.is_cache_fresh c t' = true ->
      CacheService.is_cache_fresh c t = true).
Proof.
  intros Hle. split; [intros H; by apply (is_cache_stale_time c t)|].
  unfold CacheService.is_cache_fresh.
  destruct (is_fresh c); simpl; [|done].
  destruct (cached_asins c); [done|].
  rewrite !negb_true_iff. intros Hf.
  destruct (is_cache_stale c t) eqn:Hs; [|done].
  by rewrite (is_cache_stale_time c t t' Hs Hle) in Hf.
Qed.

Lemma staleness_is_monotone_witness :
  CacheService.is_cache_fresh (example_row ["B0OLD00001"] EmptyString 0) 10
  = true.
Proof.
  assert (10 <= 86400) as Hle by lia.
  destruct (staleness_is_monotone
              (example_row ["B0OLD00001"] EmptyString 0) 10 86400 Hle)
    as [_ H].
  apply H. reflexivity.
Defined.

(** X1.  Write, then read: after a refresh that stores at least one
    identifier, the cache of the category is fresh up to and including one
    day after the write, and not fresh at any later time. *)
Theorem refresh_then_fresh
    (api : category_node -> api_filters -> outcome (list product_dict))
    (filters : gmap Z AffiliateProductFilter) (now_at : Z -> Z)
    (category : AffiliateCategory) (caches : gmap Z AffiliateProductCache)
    (rules : AffiliateProductFilter) (products : list product_dict) :
  filters !! cat_id category = Some rules ->
  api (node_of category)
    {| f_min_rating := min_rating rules;
       f_min_review_count := min_review_count rules |}
  = Returned products ->
  extract_asins (ProductRanker.rank_products products None) <> [] ->
  exists written row,
    _refresh_category_cache api filters now_at category caches
    = Returned written
    /\ written !! cat_id category = Some row
    /\ forall t,
         CacheService.is_cache_fresh row t = true
         <-> t <= now_at (cat_id category) + 86400.
Proof.
  intros Hrules Hapi Hne.
  destruct (refresh_written api filters now_at category caches rules
              products Hrules Hapi)
    as (row & Hw & Hasins & _ & Hfresh & Hnext).
  eexists _, row. split; [exact Hw|]. split; [apply lookup_insert_eq|].
  intros t. unfold CacheService.is_cache_fresh, is_cache_stale.
  rewrite Hfresh, Hasins, Hnext. simpl.
  destruct (extract_asins _) as [|a l]; [done|]. simpl.
  destruct (Z.ltb_spec (now_at (cat_id category) + 86400) t);
    simpl; split; try done; lia.
Qed.

Lemma refresh_then_fresh_witness :
  exists written row,
    _refresh_category_cache example_source example_filters example_clock
      (example_category 1 "Equipment") example_caches
    = Returned written
    /\ written !! 1 = Some row
    /\ CacheService.is_cache_fresh row 150000 = true
    /\ CacheService.is_cache_fresh row 200000 = false.
Proof.
  destruct (refresh_then_fresh example_source example_filters example_clock
              (example_category 1 "Equipment") example_caches
              FilterService.default_filter example_payload
              eq_refl eq_refl)
    as (written & row & Hw & Hrow & Ht); [by vm_compute|].
  exists written, row. split; [exact Hw|]. split; [exact Hrow|]. split.
  - apply Ht. vm_compute. discriminate.
  - destruct (CacheService.is_cache_fresh row 200000) eqn:Hf; [|done].
    apply Ht in Hf. vm_compute in Hf. by destruct Hf.
Defined.

Lemma extract_asins_elem (ranked : list product_dict) (a : string) :
  a ∈ extract_asins ranked
  <-> a <> EmptyString /\ exists p, p ∈ ranked /\ d_asin p = Some a.
Proof.
  unfold extract_asins. rewrite list_elem_of_omap. split.
  - intros (p & Hp & Ha). destruct (d_asin p) as [[|c s]|] eqn:Hd; try done.
    injection Ha as <-. split; [done|]. by exists p.
  - intros (Hne & p & Hp & Hd). exists p. split; [done|]. rewrite Hd.
    by destruct a.
Qed.

Lemma length_omap_le {A B} (f : A -> option B) (l : list A) :
  (length (omap f l) <= length l)%nat.
Proof.
  induction l as [|x l IH]; csimpl; [done|].
  destruct (f x); csimpl; lia.
Qed.

Lemma elem_of_take_elem {A} (x : A) (n : nat) (l : list A) :
  x ∈ take n l -> x ∈ l.
Proof.
  intros (i & Hi & _)%elem_of_take. by eapply list_elem_of_lookup_2.
Qed.

(** X2.  The row a refresh writes: the stored list has [min 20 product_count]
    identifiers, [product_count] is at most the number of products the
    source returned and is 0 exactly when the list is empty, and every
    stored identifier is a non-empty [asin] of one of those products. *)
Theorem refresh_row_invariant
    (api : category_node -> api_filters -> outcome (list product_dict))
    (filters : gmap Z AffiliateProductFilter) (now_at : Z -> Z)
    (category : AffiliateCategory) (caches : gmap Z AffiliateProductCache)
    (rules : AffiliateProductFilter) (products : list product_dict) :
  filters !! cat_id category = Some rules ->
  api (node_of category)
    {| f_min_rating := min_rating rules;
       f_min_review_count := min_review_count rules |}
  = Returned products ->
  exists written row,
    _refresh_category_cache api filters now_at category caches
    = Returned written
    /\ written !! cat_id category = Some row
    /\ Z.of_nat (length (cached_asins row)) = Z.min 20 (product_count row)
    /\ product_count row <= Z.of_nat (length products)
    /\ (product_count row = 0 <-> cached_asins row = [])
    /\ (forall a, a ∈ cached_asins row ->
          a <> EmptyString
          /\ exists p, p ∈ products /\ d_asin p = Some a).
Proof.
  intros Hrules Hapi.
  destruct (refresh_written api filters now_at category caches rules
              products Hrules Hapi)
    as (row & Hw & Hasins & Hcount & _ & _).
  eexists _, row. split; [exact Hw|]. split; [apply lookup_insert_eq|].
  rewrite Hasins, Hcount.
  set (ranked := ProductRanker.rank_products products None).
  assert (ranked ≡ₚ products) as Hperm
    by (subst ranked; rewrite rank_products_default;
        apply py_sorted_Permutation).
  split; [rewrite length_take; lia|]. split; [|split].
  - rewrite <- (Permutation_length Hperm). unfold extract_asins.
    apply inj_le, length_omap_le.
  - destruct (extract_asins ranked); simpl; split; try done; lia.
  - intros a Ha%elem_of_take_elem%extract_asins_elem.
    destruct Ha as (Hne & p & Hp & Hd). split; [done|]. exists p.
    by rewrite <- Hperm.
Qed.

Lemma refresh_row_invariant_witness :
  exists written row,
    _refresh_category_cache example_source example_filters example_clock
      (example_category 3 "Clothing") example_caches
    = Returned written
    /\ written !! 3 = Some row
    /\ Z.of_nat (length (cached_asins row)) = Z.min 20 (product_count row).
Proof.
  destruct (refresh_row_invariant example_source example_filters
              example_clock (example_category 3 "Clothing") example_caches
              FilterService.default_filter example_payload
              eq_refl eq_refl)
    as (written & row & Hw & Hrow & Hlen & _).
  exists written, row. split; [exact Hw|]. split; [exact Hrow|exact Hlen].
Defined.

Lemma update_or_create_twice (caches : gmap Z AffiliateProductCache)
    (category : AffiliateCategory) (defaults : cache_defaults) (now : Z) :
  update_or_create (update_or_create caches category defaults now)
    category defaults now
  = update_or_create caches category defaults now.
Proof.
  unfold update_or_create at 1.
  unfold update_or_create at 1. rewrite lookup_insert_eq.
  unfold update_or_create. rewrite insert_insert_eq.
  by destruct (caches !! cat_id category).
Qed.

(** X3.  Refreshing a category again at the same instant, with the same answer
    of the source, changes nothing. *)
Theorem refresh_idempotent
    (api : category_node -> api_filters -> outcome (list product_dict))
    (filters : gmap Z AffiliateProductFilter) (now_at : Z -> Z)
    (category : AffiliateCategory)
    (caches written : gmap Z AffiliateProductCache) :
  _refresh_category_cache api filters now_at category caches
  = Returned written ->
  _refresh_category_cache api filters now_at category written
  = Returned written.
Proof.
  unfold _refresh_category_cache.
  destruct (filters !! cat_id category) as [rules|]; [|by intros [= <-]].
  destruct (api _ _) as [products|exc]; [|done].
  intros [= <-]. by rewrite update_or_create_twice.
Qed.

Lemma refresh_idempotent_witness :
  exists written,
    _refresh_category_cache example_source example_filters example_clock
      (example_category 1 "Equipment") example_caches
    = Returned written
    /\ _refresh_category_cache example_source example_filters example_clock
         (example_category 1 "Equipment") written
       = Returned written.
Proof.
  eexists. split; [reflexivity|].
  apply (refresh_idempotent _ _ _ _ example_caches). reflexivity.
Defined.

(** ** The pipeline over the source of the repository *)

Lemma shipped_refresh (filters : gmap Z AffiliateProductFilter)
    (now_at : Z -> Z) (category : AffiliateCategory)
    (caches : gmap Z AffiliateProductCache) :
  is_raised
    (_refresh_category_cache AmazonAPIClient.get_category_products filters
       now_at category caches) = false
  /\ (is_Some (filters !! cat_id category) ->
      exists written row,
        _refresh_category_cache AmazonAPIClient.get_category_products
          filters now_at category caches = Returned written
        /\ written !! cat_id category = Some row
        /\ cached_asins row = [] /\ product_count row = 0
        /\ is_fresh row = true).
Proof.
  unfold _refresh_category_cache.
  destruct (filters !! cat_id category) as [rules|]; simpl.
  - split; [done|]. intros _. eexists _, _. split; [reflexivity|].
    unfold update_or_create. rewrite lookup_insert_eq.
    split; [reflexivity|]. by destruct (caches !! cat_id category).
  - split; [done|]. by intros [? ?].
Qed.

(** X4.  With the product source of the repository, which always returns the
    empty list, a run never counts an error and counts every selected
    category as refreshed; each selected category with a rule row ends with
    an empty identifier list, a product count of 0 and the freshness flag
    set, so that [is_cache_fresh] is false at every time and [get_products]
    is empty. *)
Theorem shipped_source_never_fills_a_cache
    (filters : gmap Z AffiliateProductFilter) (now_at : Z -> Z)
    (table : list AffiliateCategory) (category_id : option Z)
    (tier : string) (caches : gmap Z AffiliateProductCache) :
  NoDup (cat_id <$> table) ->
  let categories := select_categories table category_id tier in
  let run :=
    refresh_affiliate_products AmazonAPIClient.get_category_products filters
      now_at table category_id tier caches in
  errors run.2 = 0
  /\ refreshed run.2 = Z.of_nat (length categories)
  /\ forall c,
       c ∈ categories -> is_Some (filters !! cat_id c) ->
       exists row,
         run.1 !! cat_id c = Some row
         /\ cached_asins row = [] /\ product_count row = 0
         /\ is_fresh row = true
         /\ forall t objects,
              CacheService.is_cache_fresh row t = false
              /\ get_products row objects = [].
Proof.
  intros Hnd categories run.
  assert (NoDup (cat_id <$> categories)) as Hnd'.
  { eapply sublist_NoDup; [exact Hnd|].
    apply fmap_sublist, select_categories_sublist. }
  destruct (refresh_loop_from AmazonAPIClient.get_category_products filters
              now_at categories caches {| refreshed := 0; errors := 0 |}
              Hnd') as (Hrows & _ & Herr & Htot).
  fold (refresh_loop AmazonAPIClient.get_category_products filters now_at
          categories caches) in Hrows, Herr, Htot.
  change (refresh_loop _ _ _ categories caches) with run in Hrows, Herr, Htot.
  assert (errors run.2 = 0) as Hzero.
  { rewrite Herr. simpl.
    replace (filter _ categories) with (@nil AffiliateCategory); [done|].
    symmetry. clear. induction categories as [|c cs IH]; [done|].
    rewrite filter_cons, <- IH.
    destruct (shipped_refresh filters now_at c caches) as [-> _]. done. }
  split; [done|]. split; [simpl in Htot; lia|].
  intros c Hc Hrule. specialize (Hrows c Hc).
  destruct (shipped_refresh filters now_at c caches) as [_ H].
  destruct (H Hrule) as (written & row & Hw & Hrow & Hasins & Hcount & Hf).
  rewrite Hw in Hrows. exists row.
  split; [by etrans; [exact Hrows|]|].
  repeat split; try done.
  - unfold CacheService.is_cache_fresh. rewrite Hasins.
    by destruct (is_fresh row).
  - unfold get_products. by rewrite Hasins.
Qed.

Lemma shipped_source_never_fills_a_cache_witness :
  let run :=
    refresh_affiliate_products AmazonAPIClient.get_category_products
      example_filters example_clock example_table None "all"
      example_caches in
  errors run.2 = 0 /\ refreshed run.2 = 3.
Proof.
  intros run.
  assert (NoDup (cat_id <$> example_table)) as Hnd
    by (by apply (bool_decide_unpack _)).
  destruct (shipped_source_never_fills_a_cache example_filters example_clock
              example_table None "all" example_caches Hnd)
    as (Herr & Href & _).
  split; [exact Herr|exact Href].
Defined.

(** ** Cleanup of empty caches *)

Lemma cleanup_lookup (caches : gmap Z AffiliateProductCache) (now : Z)
    (k : Z) :
  (cleanup_expired_categories caches now).1 !! k
  = (fun c => if product_count c =? 0 then mark_not_fresh now c else c)
      <$> caches !! k.
Proof. unfold cleanup_expired_categories. simpl. apply lookup_fmap. Qed.

(** X5.  [cleanup_expired_categories] turns the freshness flag off on every row
    whose product count is 0, which makes [is_cache_stale] true at every
    time, and keeps the identifier list; rows with another count are left
    as they are and no row is added.  The count it returns is the number of
    rows with product count 0, and a second run at the same instant changes
    nothing. *)
Theorem cleanup_marks_empty_caches (caches : gmap Z AffiliateProductCache)
    (now : Z) :
  let run := cleanup_expired_categories caches now in
  (forall k c,
     caches !! k = Some c -> product_count c = 0 ->
     exists c',
       run.1 !! k = Some c'
       /\ is_fresh c' = false
       /\ cached_asins c' = cached_asins c
       /\ product_count c' = 0
       /\ forall t, is_cache_stale c' t = true)
  /\ (forall k c,
        caches !! k = Some c -> product_count c <> 0 -> run.1 !! k = Some c)
  /\ (forall k, caches !! k = None -> run.1 !! k = None)
  /\ run.2 = count_empty_caches caches
  /\ cleanup_expired_categories run.1 now = run.
Proof.
  intros run. subst run.
  assert ((fun c => if product_count c =? 0 then mark_not_fresh now c else c)
          <$> ((fun c => if product_count c =? 0
                         then mark_not_fresh now c else c) <$> caches)
          = (fun c => if product_count c =? 0 then mark_not_fresh now c else c)
              <$> caches) as Hidem.
  { rewrite <- map_fmap_compose. apply map_fmap_ext. intros k c _. simpl.
    destruct (product_count c =? 0) eqn:Hc; simpl; rewrite Hc; done. }
  assert (count_empty_caches
            ((fun c => if product_count c =? 0 then mark_not_fresh now c
                       else c) <$> caches)
          = count_empty_caches caches) as Hcount.
  { unfold count_empty_caches. f_equal.
    rewrite map_filter_fmap, map_size_fmap. f_equal.
    apply map_filter_ext. intros k c _. simpl.
    by destruct (product_count c =? 0). }
  split; [|split; [|split; [|split]]].
  - intros k c Hk Hc. rewrite cleanup_lookup, Hk. simpl.
    rewrite Hc. simpl. eexists. split; [reflexivity|]. by repeat split.
  - intros k c Hk Hc. rewrite cleanup_lookup, Hk. simpl.
    by rewrite (proj2 (Z.eqb_neq _ _) Hc).
  - intros k Hk. by rewrite cleanup_lookup, Hk.
  - exact Hcount.
  - unfold cleanup_expired_categories. simpl. by rewrite Hidem.
Qed.

(** X6.  Refresh, then cleanup: a category whose refresh stored no identifier
    is marked stale by the cleanup; one whose refresh stored an identifier
    keeps the row the refresh wrote. *)
Theorem cleanup_after_refresh
    (api : category_node -> api_filters -> outcome (list product_dict))
    (filters : gmap Z AffiliateProductFilter) (now_at : Z -> Z)
    (category : AffiliateCategory) (caches : gmap Z AffiliateProductCache)
    (rules : AffiliateProductFilter) (products : list product_dict)
    (now : Z) :
  filters !! cat_id category = Some rules ->
  api (node_of category)
    {| f_min_rating := min_rating rules;
       f_min_review_count := min_review_count rules |}
  = Returned products ->
  let asins := extract_asins (ProductRanker.rank_products products None) in
  exists written row,
    _refresh_category_cache api filters now_at category caches
    = Returned written
    /\ written !! cat_id category = Some row
    /\ (asins = [] ->
        exists row',
          (cleanup_expired_categories written now).1 !! cat_id category
          = Some row'
          /\ is_fresh row' = false
          /\ forall t, is_cache_stale row' t = true)
    /\ (asins <> [] ->
        (cleanup_expired_categories written now).1 !! cat_id category
        = Some row).
Proof.
  intros Hrules Hapi asins.
  destruct (refresh_written api filters now_at category caches rules
              products Hrules Hapi)
    as (row & Hw & Hasins & Hcount & _ & _).
  eexists _, row. split; [exact Hw|]. split; [apply lookup_insert_eq|].
  rewrite cleanup_lookup, lookup_insert_eq. simpl. rewrite Hcount.
  fold asins. split.
  - intros ->. simpl. eexists. split; [reflexivity|]. by split.
  - intros Hne. destruct asins; [done|]. done.
Qed.

Lemma cleanup_after_refresh_witness :
  exists written row,
    _refresh_category_cache example_source example_filters example_clock
      (example_category 1 "Equipment") example_caches
    = Returned written
    /\ written !! 1 = Some row
    /\ (cleanup_expired_categories written 200000).1 !! 1 = Some row.
Proof.
  destruct (cleanup_after_refresh example_source example_filters
              example_clock (example_category 1 "Equipment") example_caches
              FilterService.default_filter example_payload 200000
              eq_refl eq_refl)
    as (written & row & Hw & Hrow & _ & Hkeep).
  exists written, row. split; [exact Hw|]. split; [exact Hrow|].
  apply Hkeep. by vm_compute.
Defined.

(** ** Reading the cache *)

Lemma get_products_elem (self : AffiliateProductCache)
    (objects : list AffiliateProduct) (x : AffiliateProduct) :
  x ∈ get_products self objects
  <-> x ∈ objects /\ asin x ∈ cached_asins self /\ status x = ACTIVE.
Proof.
  unfold get_products.
  destruct (cached_asins self) as [|a asins] eqn:Hasins.
  - split; [by intros ?%elem_of_nil|]. by intros (_ & ?%elem_of_nil & _).
  - rewrite py_sorted_Permutation. unfold filter_asin_in_active.
    rewrite list_elem_of_filter. tauto.
Qed.

Lemma get_products_length (self : AffiliateProductCache)
    (objects : list AffiliateProduct) :
  NoDup (asin <$> objects) ->
  (length (get_products self objects) <= length (cached_asins self))%nat.
Proof.
  intros Hnd.
  rewrite (get_products_resolve objects Hnd self objects) by done.
  unfold resolve_in_order.
  etrans; [apply length_omap_le|].
  apply sublist_length, keep_last_sublist.
Qed.

(** X8.  [get_products] returns exactly the ACTIVE rows of the product table
    whose identifier is stored; with unique identifiers in the table, no
    identifier comes twice and there are at most as many records as stored
    identifiers. *)
Theorem get_products_sound (self : AffiliateProductCache)
    (objects : list AffiliateProduct) :
  (forall x,
     x ∈ get_products self objects
     <-> x ∈ objects /\ asin x ∈ cached_asins self /\ status x = ACTIVE)
  /\ (NoDup (asin <$> objects) ->
      NoDup (asin <$> get_products self objects)
      /\ (length (get_products self objects)
          <= length (cached_asins self))%nat).
Proof.
  split; [apply get_products_elem|]. intros Hnd.
  split; [|by apply get_products_length].
  unfold get_products. destruct (cached_asins self) as [|a asins];
    [constructor|].
  rewrite py_sorted_Permutation. unfold filter_asin_in_active.
  eapply sublist_NoDup; [exact Hnd|]. apply fmap_sublist, sublist_filter.
Qed.

Lemma get_products_sound_witness :
  NoDup (asin <$> get_products
                    (example_row ["C"; "E"; "A"; "D"; "B"] EmptyString 0)
                    example_products).
Proof.
  assert (NoDup (asin <$> example_products)) as Hnd
    by (by apply (bool_decide_unpack _)).
  destruct (get_products_sound
              (example_row ["C"; "E"; "A"; "D"; "B"] EmptyString 0)
              example_products) as [_ H].
  by destruct (H Hnd).
Defined.

(** X9.  With unique identifiers in the product table, the products that
    [ProductService.get_category_products] returns are never more than
    [get_product_count] says, and never more than a positive limit; without
    a cache row the list is empty and the count 0; every product returned
    is an ACTIVE row of the table. *)
Theorem category_products_within_count
    (caches : gmap Z AffiliateProductCache)
    (objects : list AffiliateProduct) (category : AffiliateCategory)
    (limit : option nat) :
  NoDup (asin <$> objects) ->
  let products :=
    ProductService.get_category_products caches objects category limit in
  Z.of_nat (length products) <= get_product_count caches category
  /\ (forall n, limit = Some (S n) -> (length products <= S n)%nat)
  /\ (caches !! cat_id category = None ->
      products = [] /\ get_product_count caches category = 0)
  /\ forall x, x ∈ products -> x ∈ objects /\ status x = ACTIVE.
Proof.
  intros Hnd products. subst products.
  unfold ProductService.get_category_products, get_product_count.
  destruct (caches !! cat_id category) as [cache|].
  - pose proof (get_products_length cache objects Hnd) as Hlen.
    split; [|split; [|split]].
    + destruct limit as [[|n]|]; rewrite ?length_take; lia.
    + intros n ->. rewrite length_take. lia.
    + intros [=].
    + intros x Hx.
      assert (x ∈ get_products cache objects) as Hin.
      { destruct limit as [[|n]|]; [done| |done].
        by eapply elem_of_take_elem. }
      apply get_products_elem in Hin. tauto.
  - split; [done|]. split; [intros n _; simpl; lia|]. split; [done|].
    by intros x ?%elem_of_nil.
Qed.

Lemma category_products_within_count_witness :
  let caches : gmap Z AffiliateProductCache :=
    {[ 1 := example_row ["C"; "E"; "A"] EmptyString 0 ]} in
  Z.of_nat (length (ProductService.get_category_products caches
                      example_products (example_category 1 "Equipment")
                      (Some 0%nat)))
  <= get_product_count caches (example_category 1 "Equipment").
Proof.
  intros caches.
  assert (NoDup (asin <$> example_products)) as Hnd
    by (by apply (bool_decide_unpack _)).
  by destruct (category_products_within_count caches example_products
                 (example_category 1 "Equipment") (Some 0%nat) Hnd)
    as [H _].
Defined.

(** X10.  The fallback never returns more than [limit] products, and only
    ACTIVE rows of the product table, whichever of its branches is taken. *)
Theorem fallback_products_sound (caches : gmap Z AffiliateProductCache)
    (objects : list AffiliateProduct) (category : AffiliateCategory)
    (limit : nat) :
  let products :=
    CacheService.get_fallback_products caches objects category limit in
  (length products <= limit)%nat
  /\ forall x, x ∈ products -> x ∈ objects /\ status x = ACTIVE.
Proof.
  intros products. subst products.
  unfold CacheService.get_fallback_products, CacheService.parent_products,
    ProductService.get_top_products.
  destruct (parent category) as [pid|]; simpl.
  - destruct (caches !! pid) as [pc|]; [destruct (cached_asins pc) eqn:Ha|].
    all: split; [rewrite length_take; lia|].
    all: intros x Hx%elem_of_take_elem.
    2: { apply get_products_elem in Hx. tauto. }
    all: unfold ProductService.order_by_rating_reviews in Hx;
      rewrite py_sorted_Permutation in Hx;
      apply list_elem_of_filter in Hx as [[? ?] ?]; done.
  - split; [rewrite length_take; lia|].
    intros x Hx%elem_of_take_elem.
    unfold ProductService.order_by_rating_reviews in Hx.
    rewrite py_sorted_Permutation in Hx.
    apply list_elem_of_filter in Hx as [[? ?] ?]; done.
Qed.

(** X11.  The top products for a smaller limit are the first ones of the top
    products for a larger limit; there are [min limit k] of them, [k] being
    the number of ACTIVE in-stock rows, and all of them are ACTIVE and in
    stock. *)
Theorem top_products_prefix (objects : list AffiliateProduct) (n m : nat) :
  (n <= m)%nat ->
  ProductService.get_top_products objects n
  = take n (ProductService.get_top_products objects m)
  /\ length (ProductService.get_top_products objects n)
     = min n (length (filter ProductService.active_in_stock objects))
  /\ forall x,
       x ∈ ProductService.get_top_products objects n ->
       x ∈ objects /\ status x = ACTIVE /\ in_stock x = true.
Proof.
  intros Hle. unfold ProductService.get_top_products,
    ProductService.order_by_rating_reviews.
  split; [|split].
  - rewrite take_take. f_equal. lia.
  - by rewrite length_take, (Permutation_length (py_sorted_Permutation _ _)).
  - intros x Hx%elem_of_take_elem. rewrite py_sorted_Permutation in Hx.
    apply list_elem_of_filter in Hx as [[? ?] ?]. done.
Qed.

Lemma top_products_prefix_witness :
  ProductService.get_top_products example_products 1
  = take 1 (ProductService.get_top_products example_products 3).
Proof.
  assert (1 <= 3)%nat as Hle by lia.
  by destruct (top_products_prefix example_products 1 3 Hle) as [H _].
Defined.

(** X12.  The category page shows at most 8 products, the ones that
    [get_category_products] returns for a limit of 8; if it shows any, it
    reports products as available, and it reports them as available exactly
    when [get_product_count] is positive. *)
Theorem category_page_products (caches : gmap Z AffiliateProductCache)
    (objects : list AffiliateProduct) (category : AffiliateCategory) :
  let ctx := CategoryDetailView.get_context_data caches objects category in
  (length (CategoryDetailView.ctx_products ctx) <= 8)%nat
  /\ (CategoryDetailView.ctx_products ctx <> [] ->
      CategoryDetailView.ctx_products_available ctx = true)
  /\ (CategoryDetailView.ctx_products_available ctx = true
      <-> 0 < get_product_count caches category)
  /\ CategoryDetailView.ctx_products ctx
     = ProductService.get_category_products caches objects category
         (Some 8%nat).
Proof.
  intros ctx. subst ctx.
  unfold CategoryDetailView.get_context_data, get_product_count,
    ProductService.get_category_products.
  destruct (caches !! cat_id category) as [cache|]; simpl.
  - split; [rewrite length_take; lia|]. split; [|split; [|done]].
    + intros Hne. apply Nat.ltb_lt.
      destruct (cached_asins cache) eqn:Ha; [|simpl; lia].
      destruct Hne. unfold get_products. by rewrite Ha.
    + rewrite Nat.ltb_lt. lia.
  - split; [lia|]. split; [done|]. split; [|done]. split; [done|lia].
Qed.

(** ** More on the eligibility filter *)

Lemma Qltb_false x y : Qltb x y = false <-> (y <= x)%Q.
Proof. unfold Qltb. rewrite negb_false_iff. apply Qle_bool_iff. Qed.

Lemma meets_filter_criteria_dict (P : AffiliateProduct)
    (R : AffiliateProductFilter) :
  meets_filter_criteria P (rules_as_dict R) = passes_rating_reviews_stock P R.
Proof.
  unfold meets_filter_criteria, passes_rating_reviews_stock. simpl.
  destruct (rating P) as [r|]; [|done].
  unfold Qltb. destruct (Qle_bool (min_rating R) r); simpl; [|done].
  rewrite (Z.leb_antisym (review_count P)).
  destruct (review_count P <? min_review_count R); simpl; [done|].
  by destruct (in_stock_only R), (in_stock P).
Qed.

Lemma apply_filter_rules_passes (P : AffiliateProduct)
    (R : AffiliateProductFilter) :
  FilterService.apply_filter_rules P R = true ->
  passes_rating_reviews_stock P R = true.
Proof.
  unfold FilterService.apply_filter_rules, passes_rating_reviews_stock.
  destruct (rating P) as [r|]; [|done].
  unfold Qltb. destruct (Qle_bool (min_rating R) r); simpl; [|done].
  rewrite (Z.leb_antisym (review_count P)).
  destruct (review_count P <? min_review_count R); simpl; [done|].
  by destruct (in_stock_only R), (in_stock P).
Qed.

(** X13.  The two eligibility checks: a product that
    [FilterService.apply_filter_rules] accepts under a rule is accepted by
    [meets_filter_criteria] under the same minima, and for a rule without
    price bounds the two checks give the same verdict. *)
Theorem filter_checks_agree (P : AffiliateProduct)
    (R : AffiliateProductFilter) :
  (FilterService.apply_filter_rules P R = true ->
   meets_filter_criteria P (rules_as_dict R) = true)
  /\ (min_price R = None -> max_price R = None ->
      FilterService.apply_filter_rules P R
      = meets_filter_criteria P (rules_as_dict R)).
Proof.
  rewrite meets_filter_criteria_dict. split.
  - apply apply_filter_rules_passes.
  - intros Hlo Hhi.
    destruct (decimal_truthy (price_gbp P)) eqn:Ht;
      [|by apply apply_filter_rules_no_price].
    unfold FilterService.apply_filter_rules, passes_rating_reviews_stock.
    rewrite Ht, Hlo, Hhi. simpl.
    destruct (price_gbp P); three_checks.
Qed.

Lemma filter_checks_agree_witness :
  let P := {| asin := "B000000004"; title := "Foam roller";
              price_gbp := Some (1499 # 100); rating := Some (44 # 10);
              review_count := 800; in_stock := true; bsr_rank := None;
              status := ACTIVE |} in
  FilterService.apply_filter_rules P FilterService.default_filter
  = meets_filter_criteria P (rules_as_dict FilterService.default_filter).
Proof.
  intros P.
  destruct (filter_checks_agree P FilterService.default_filter) as [_ H].
  by apply H.
Defined.

(** X14.  For a category without a rule row, a product passes the rule that
    [get_filter_rules] returns exactly when it has a rating of at least 4.0,
    at least 200 reviews and is in stock, whatever its price. *)
Theorem default_rule_verdict (filters : gmap Z AffiliateProductFilter)
    (category : AffiliateCategory) (P : AffiliateProduct) :
  filters !! cat_id category = None ->
  FilterService.apply_filter_rules P
    (FilterService.get_filter_rules filters category) = true
  <-> (exists r, rating P = Some r /\ (4 <= r)%Q)
      /\ 200 <= review_count P
      /\ in_stock P = true.
Proof.
  intros Hnone. unfold FilterService.get_filter_rules. rewrite Hnone.
  unfold FilterService.apply_filter_rules, FilterService.default_filter.
  simpl. destruct (rating P) as [r|]; simpl.
  - destruct (Qltb r 4) eqn:Hr.
    + split; [done|]. intros [(r' & [= <-] & Hle) _].
      apply Qltb_lt in Hr. exfalso. revert Hr Hle. apply Qlt_not_le.
    + apply Qltb_false in Hr.
      destruct (Z.ltb_spec (review_count P) 200); simpl.
      * split; [done|]. intros (_ & ? & _). lia.
      * destruct (in_stock P); simpl.
        -- split.
           ++ intros _. split; [by exists r|]. by split.
           ++ intros _.
              destruct (decimal_truthy _); [destruct (price_gbp P)|]; done.
        -- split; [done|]. by intros (_ & _ & ?).
  - split; [done|]. by intros [(r & ? & _) _].
Qed.

Lemma default_rule_verdict_witness :
  FilterService.apply_filter_rules
    (example_product "A" (Some (45 # 10)) 300 ACTIVE)
    (FilterService.get_filter_rules ∅ (example_category 9 "Yoga"))
  = true.
Proof.
  apply (default_rule_verdict ∅ (example_category 9 "Yoga")); [done|].
  split; [|split; [simpl; lia|done]].
  exists (45 # 10)%Q. split; [done|]. by vm_compute.
Defined.

(** X15.  Relaxing a rule never rejects a product that the rule accepted. *)
Theorem looser_rule_accepts_more (P : AffiliateProduct)
    (R R' : AffiliateProductFilter) :
  looser_rule R' R ->
  FilterService.apply_filter_rules P R = true ->
  FilterService.apply_filter_rules P R' = true.
Proof.
  intros (Hr & Hc & Hs & Hlo & Hhi).
  unfold FilterService.apply_filter_rules.
  destruct (rating P) as [r|]; [|done].
  destruct (Qltb r (min_rating R)) eqn:Hr1; [done|].
  apply Qltb_false in Hr1.
  assert (Qltb r (min_rating R') = false) as ->
    by (apply Qltb_false; by apply (Qle_trans _ (min_rating R))).
  destruct (Z.ltb_spec (review_count P) (min_review_count R)); [done|].
  assert ((review_count P <? min_review_count R') = false) as ->
    by (apply Z.ltb_ge; lia).
  destruct (in_stock P) eqn:Hin.
  - rewrite !andb_false_r.
    destruct (decimal_truthy (price_gbp P)); [|done].
    destruct (price_gbp P) as [price|]; [|done].
    destruct Hlo as [-> | ->], Hhi as [-> | ->]; simpl;
      repeat match goal with
             | |- context [if ?b then false else _] =>
                 destruct b eqn:?; try done
             end.
  - rewrite !andb_true_r.
    destruct (in_stock_only R) eqn:Hs1; [done|].
    destruct (in_stock_only R'); [by specialize (Hs eq_refl)|].
    destruct (decimal_truthy (price_gbp P)); [|done].
    destruct (price_gbp P) as [price|]; [|done].
    destruct Hlo as [-> | ->], Hhi as [-> | ->]; simpl;
      repeat match goal with
             | |- context [if ?b then false else _] =>
                 destruct b eqn:?; try done
             end.
Qed.

Lemma looser_rule_accepts_more_witness :
  let R := {| min_rating := 45 # 10; min_review_count := 250;
              max_bsr_percentile := 10; uk_marketplace_only := true;
              in_stock_only := true; min_price := None;
              max_price := Some 100%Q; is_active := true |} in
  FilterService.apply_filter_rules
    (example_product "A" (Some (45 # 10)) 300 ACTIVE)
    FilterService.default_filter = true.
Proof.
  intros R.
  apply (looser_rule_accepts_more _ R).
  - split; [by vm_compute|]. split; [by vm_compute|].
    split; [done|]. split; [by left|by right].
  - reflexivity.
Defined.

(** ** More on the ranker *)

Section PySortedMore.
Context {A : Type} (lt : A -> A -> bool).


(** A list that is in order is left as it is. *)
Lemma py_sorted_sorted (l : list A) :
  StronglySorted (not_after lt) l -> py_sorted lt l = l.
Proof.
  induction 1 as [|x l Hl IH Hx]; simpl; [done|]. rewrite IH.
  destruct l as [|y l']; simpl; [done|].
  apply Forall_cons in Hx as [Hxy _]. unfold not_after in Hxy.
  by rewrite Hxy.
Qed.
End PySortedMore.






(** X17.  Ranking a ranked list leaves it as it is. *)
Theorem rank_products_idempotent (products : list product_dict) :
  ProductRanker.rank_products
    (ProductRanker.rank_products products None) None
  = ProductRanker.rank_products products None.
Proof.
  rewrite !rank_products_default. apply py_sorted_sorted.
  apply py_sorted_StronglySorted.
  - apply rank_lt_irrefl.
  - apply rank_lt_trans.
  - apply rank_lt_cotrans.
Qed.

(** ** The categories of a run *)

Lemma filter_and_sublist {A} (P Q : A -> Prop)
    `{!forall x, Decision (P x)} `{!forall x, Decision (Q x)} (l : list A) :
  filter (fun x => P x /\ Q x) l `sublist_of` filter P l.
Proof.
  induction l as [|x l IH]; [done|]. rewrite !filter_cons.
  destruct (decide (P x)), (decide (P x /\ Q x)); try tauto;
    by constructor.
Qed.

(** X18.  The categories of a run are rows of the table in table order.  An
    explicit non-zero [category_id] selects the rows with that key whatever
    their status and whatever the tier.  Otherwise the tier ["top"] selects
    at most 20 categories, all ACTIVE and featured, and all of them are also
    selected by every other tier, which all select the same: every ACTIVE
    category. *)
Theorem selected_categories (table : list AffiliateCategory)
    (category_id : option Z) (tier : string) :
  select_categories table category_id tier `sublist_of` table
  /\ (forall id c,
        category_id = Some id -> id <> 0 ->
        c ∈ select_categories table category_id tier
        <-> c ∈ table /\ cat_id c = id)
  /\ (category_id = None \/ category_id = Some 0 ->
      (length (select_categories table category_id "top") <= 20)%nat
      /\ (forall c,
            c ∈ select_categories table category_id "top" ->
            cat_status c = CAT_ACTIVE /\ is_featured c = true)
      /\ select_categories table category_id "top"
         `sublist_of` select_categories table category_id "all"
      /\ (tier <> "top" ->
          select_categories table category_id tier
          = select_categories table category_id "all")
      /\ (forall c,
            c ∈ select_categories table category_id "all"
            <-> c ∈ table /\ cat_status c = CAT_ACTIVE)).
Proof.
  split; [apply select_categories_sublist|]. split.
  - intros id c -> Hid. unfold select_categories.
    rewrite (proj2 (Z.eqb_neq id 0) Hid). simpl.
    rewrite list_elem_of_filter. tauto.
  - intros Hnone.
    assert (forall t,
              select_categories table category_id t
              = if String.eqb t "top"
                then take 20 (filter (fun c => cat_status c = CAT_ACTIVE
                                               /\ is_featured c = true)
                                table)
                else filter (fun c => cat_status c = CAT_ACTIVE) table)
      as Hsel by (intros t; by destruct Hnone as [-> | ->]).
    rewrite !Hsel. simpl. split; [rewrite length_take; lia|].
    split; [|split; [|split]].
    + intros c Hc%elem_of_take_elem%list_elem_of_filter. tauto.
    + etrans; [apply sublist_take|].
      apply (filter_and_sublist (fun c => cat_status c = CAT_ACTIVE)
               (fun c => is_featured c = true)).
    + intros Htier. by rewrite (proj2 (String.eqb_neq tier "top") Htier).
    + intros c. rewrite list_elem_of_filter. tauto.
Qed.

(** ** Text helpers *)

(** X19.  [TextHelper.truncate] returns a text that fits unchanged.  When the
    suffix fits in [max_length], the result has [min (len text) max_length]
    characters and truncating it again changes nothing.  A text that is cut
    ends with the suffix; if the suffix is longer than [max_length], the
    result is longer than [max_length]. *)
Theorem truncate_length (text : list ascii) (max_length : Z)
    (suffix : list ascii) :
  let result := TextHelper.truncate text max_length suffix in
  (Z.of_nat (length text) <= max_length -> result = text)
  /\ (Z.of_nat (length suffix) <= max_length ->
      Z.of_nat (length result)
      = Z.min (Z.of_nat (length text)) max_length
      /\ TextHelper.truncate result max_length suffix = result)
  /\ (max_length < Z.of_nat (length text) ->
      suffix `suffix_of` result
      /\ (max_length < Z.of_nat (length suffix) ->
          max_length < Z.of_nat (length result))).
Proof.
  intros result. subst result. unfold TextHelper.truncate.
  destruct (Z.ltb_spec max_length (Z.of_nat (length text))) as [Hlong|Hshort].
  - split; [lia|]. split.
    + intros Hsuf. unfold py_slice_to.
      rewrite (proj2 (Z.leb_le 0 _)) by lia.
      assert (Z.of_nat (length (take (Z.to_nat (max_length
                 - Z.of_nat (length suffix))) text ++ suffix)) = max_length)
        as Hlen by (rewrite length_app, length_take; lia).
      split; [lia|].
      rewrite (proj2 (Z.ltb_ge _ _)); [done|lia].
    + intros _. split; [by eexists|].
      intros Hsuf. rewrite length_app. lia.
  - split; [done|]. split; [|lia].
    intros _. split; [lia|].
    by rewrite (proj2 (Z.ltb_ge _ _)).
Qed.

(** X20.  Two cache keys built from prefixes without a colon are equal only if
    the prefixes and the identifiers are. *)
Theorem cache_key_injective (prefix1 prefix2 id1 id2 : list ascii) :
  ":"%char ∉ prefix1 -> ":"%char ∉ prefix2 ->
  CacheHelper.cache_key prefix1 id1 = CacheHelper.cache_key prefix2 id2 ->
  prefix1 = prefix2 /\ id1 = id2.
Proof.
  unfold CacheHelper.cache_key. simpl. revert prefix2.
  induction prefix1 as [|c p1 IH]; intros [|d p2] H1 H2 Heq; simpl in Heq.
  - by injection Heq as ->.
  - injection Heq as <- _. destruct H2. by left.
  - injection Heq as -> _. destruct H1. by left.
  - injection Heq as -> Heq.
    apply not_elem_of_cons in H1 as [_ H1], H2 as [_ H2].
    destruct (IH p2 H1 H2 Heq) as [-> ->]. done.
Qed.

Lemma cache_key_injective_witness :
  chars "affiliate_products" = chars "affiliate_products"
  /\ chars "fitness-equipment" = chars "fitness-equipment".
Proof.
  apply cache_key_injective; [| |reflexivity];
    by apply (bool_decide_unpack _).
Defined.

(** X21.  [add_utm_params] keeps the URL as a prefix and returns a URL with a
    question mark, so that a second application always appends its
    parameters with an ampersand. *)
Theorem utm_params_compose (url source medium campaign : list ascii) :
  let tagged := URLHelper.add_utm_params url source medium campaign in
  url `prefix_of` tagged
  /\ "?"%char ∈ tagged
  /\ forall s m c,
       URLHelper.add_utm_params tagged s m c
       = tagged ++ chars "&utm_source=" ++ s ++ chars "&utm_medium=" ++ m
           ++ chars "&utm_campaign=" ++ c.
Proof.
  intros tagged.
  assert ("?"%char ∈ tagged) as Hq.
  { subst tagged. unfold URLHelper.add_utm_params.
    case_bool_decide as Hin.
    - apply elem_of_app. by left.
    - apply elem_of_app. right. by left. }
  split; [by eexists|]. split; [done|].
  intros s m c. unfold URLHelper.add_utm_params at 1.
  by rewrite bool_decide_eq_true_2.
Qed.

(** X22.  An affiliate link with a partner tag, given or taken from the
    environment, followed by [add_utm_params]: the tag comes after the
    question mark and the tracking parameters are appended with an
    ampersand. *)
Theorem affiliate_link_with_utm (env_partner_tag env_region asin : list ascii)
    (partner_tag : option (list ascii)) (tag source medium campaign
      : list ascii) :
  tag <> [] ->
  partner_tag = Some tag
  \/ ((partner_tag = None \/ partner_tag = Some [])
      /\ env_partner_tag = tag) ->
  URLHelper.add_utm_params
    (URLHelper.amazon_affiliate_link env_partner_tag env_region asin
       partner_tag) source medium campaign
  = chars "https://amazon." ++ env_region ++ chars "/dp/" ++ asin
      ++ chars "?tag=" ++ tag ++ chars "&utm_source=" ++ source
      ++ chars "&utm_medium=" ++ medium ++ chars "&utm_campaign=" ++ campaign.
Proof.
  intros Hne Htag.
  assert (URLHelper.amazon_affiliate_link env_partner_tag env_region asin
            partner_tag
          = chars "https://amazon." ++ env_region ++ chars "/dp/" ++ asin
              ++ chars "?tag=" ++ tag) as ->.
  { unfold URLHelper.amazon_affiliate_link.
    destruct Htag as [-> | [[-> | ->] ->]]; destruct tag; try done;
      by rewrite <- !app_assoc. }
  unfold URLHelper.add_utm_params. rewrite bool_decide_eq_true_2.
  - by rewrite <- !app_assoc.
  - rewrite !elem_of_app. do 4 right. left. by left.
Qed.

Lemma affiliate_link_with_utm_witness :
  URLHelper.add_utm_params
    (URLHelper.amazon_affiliate_link (chars "fitvantage-21") (chars "co.uk")
       (chars "B000000001") None)
    (chars "fitvantage") (chars "affiliate") (chars "products")
  = chars "https://amazon.co.uk/dp/B000000001?tag=fitvantage-21"
      ++ chars "&utm_source=fitvantage&utm_medium=affiliate"
      ++ chars "&utm_campaign=products".
Proof.
  rewrite (affiliate_link_with_utm _ _ _ None (chars "fitvantage-21"));
    [reflexivity|done|].
  right. split; [by left|done].
Defined.

(** ** Blog posts *)


(** ** Lead housekeeping *)

Lemma lead_is_stale_after (cutoff cutoff' : Z) (lead : Lead.t) :
  cutoff' <= cutoff ->
  lead_is_stale cutoff
    (if lead_is_stale cutoff lead then
       {| Lead.name := Lead.name lead;
          Lead.provider_id := Lead.provider_id lead;
          Lead.status := Lead.EXPIRED;
          Lead.is_billed := Lead.is_billed lead;
          Lead.created_at := Lead.created_at lead;
          Lead.updated_at := Lead.updated_at lead |}
     else lead) = false
  /\ lead_is_stale cutoff'
       (if lead_is_stale cutoff lead then
          {| Lead.name := Lead.name lead;
             Lead.provider_id := Lead.provider_id lead;
             Lead.status := Lead.EXPIRED;
             Lead.is_billed := Lead.is_billed lead;
             Lead.created_at := Lead.created_at lead;
             Lead.updated_at := Lead.updated_at lead |}
        else lead) = false.
Proof.
  intros Hle. destruct (lead_is_stale cutoff lead) eqn:Hs; [done|].
  split; [done|]. unfold lead_is_stale in *.
  apply andb_false_iff in Hs as [Hs|Hs]; [by rewrite Hs|].
  apply andb_false_iff. right. apply Z.ltb_ge in Hs. apply Z.ltb_ge. lia.
Qed.

(** X24.  [cleanup_expired_leads] keeps the number and order of the leads,
    leaves a lead alone unless it is NEW or CONTACTED and was created more
    than 30 days before, turns such a lead to EXPIRED without touching its
    timestamps, returns a count within the number of leads, and a second run
    at the same or an earlier time expires nothing more. *)
Theorem expired_leads_cleanup (leads : list Lead.t) (now : Z) :
  let run := cleanup_expired_leads leads now in
  length run.1 = length leads
  /\ (forall i lead,
        leads !! i = Some lead ->
        (Lead.status lead <> Lead.NEW /\ Lead.status lead <> Lead.CONTACTED)
        \/ now - 2592000 <= Lead.created_at lead ->
        run.1 !! i = Some lead)
  /\ (forall i lead,
        leads !! i = Some lead ->
        (Lead.status lead = Lead.NEW \/ Lead.status lead = Lead.CONTACTED) ->
        Lead.created_at lead < now - 2592000 ->
        exists lead',
          run.1 !! i = Some lead'
          /\ Lead.status lead' = Lead.EXPIRED
          /\ Lead.updated_at lead' = Lead.updated_at lead
          /\ Lead.created_at lead' = Lead.created_at lead)
  /\ 0 <= run.2 <= Z.of_nat (length leads)
  /\ forall now', now' <= now -> cleanup_expired_leads run.1 now' = (run.1, 0).
Proof.
  intros run. subst run. unfold cleanup_expired_leads, timedelta_days.
  simpl. change (30 * 86400) with 2592000.
  split; [by rewrite length_fmap|]. split; [|split; [|split]].
  - intros i lead Hi Hkeep. rewrite list_lookup_fmap, Hi. simpl.
    assert (lead_is_stale (now - 2592000) lead = false) as ->; [|done].
    unfold lead_is_stale. destruct Hkeep as [[H1 H2]|Hnew].
    + by rewrite !bool_decide_eq_false_2.
    + apply andb_false_iff. right. apply Z.ltb_ge. lia.
  - intros i lead Hi Hst Hold. rewrite list_lookup_fmap, Hi. simpl.
    assert (lead_is_stale (now - 2592000) lead = true) as ->.
    { unfold lead_is_stale. apply andb_true_iff. split; [|by apply Z.ltb_lt].
      destruct Hst as [-> | ->]; done. }
    eexists. split; [reflexivity|]. done.
  - pose proof (length_filter
                  (fun lead => lead_is_stale (now - 2592000) lead = true)
                  leads). lia.
  - intros now' Hle. f_equal.
    + rewrite <- list_fmap_compose. apply list_fmap_ext.
      intros i lead _. simpl.
      destruct (lead_is_stale_after (now - 2592000) (now' - 2592000) lead)
        as [_ ->]; [lia|done].
    + replace (filter _ _) with (@nil Lead.t); [done|]. symmetry.
      induction leads as [|lead leads IH]; [done|].
      rewrite fmap_cons, filter_cons, <- IH.
      destruct (lead_is_stale_after (now - 2592000) (now' - 2592000) lead)
        as [_ ->]; [lia|done].
Qed.
